(** * dav-mcp: the STDIO dispatcher and process supervisor of [src/server-stdio.js]

    A shallow embedding of the request handlers registered by
    [createMCPServer], of the error translation in the [tools/call] handler,
    of [start] and of [gracefulShutdown], together with the properties the
    specification states about them.

    Conventions.
    - JavaScript values that only flow through the code (arguments, results,
      schemas, log payloads) are [Json] trees.
    - An error created by the server or by its collaborators at startup and
      shutdown is a [JsError]: an [Error] object with a string [message], if
      any, and a numeric [code], if any. What a tool handler throws is any
      JavaScript value ([Raised]): [undefined], [null], or a value seen
      through its [message] and [code] properties, whatever the [message]
      is. The engine-generated [stack] is not represented.
    - Side effects (logger calls, console output, probes of the remote
      client, handler invocations) are appended, in program order, to the
      [effects] trace of the [World]; an exception keeps the effects that
      happened before it, as in JavaScript.
    - Modules of the repository that [server-stdio.js] imports but that are
      not part of the sources at hand ([tools/index.js], [error-handler.js],
      [tsdav-client.js], [tool-call-logger.js], [logger.js]) are parameters
      of the development or are represented by the calls made to them. *)

From Stdlib Require Import String ZArith List Bool Lia DecimalString.
From stdpp Require Import base option gmap strings.
Import ListNotations.

Local Open Scope string_scope.
Local Open Scope Z_scope.

(** ** JavaScript data *)

#[warnings="-register-all"]
Inductive Json : Type :=
| JNull
| JBool (b : bool)
| JNum (n : Z)
| JStr (s : string)
| JArr (items : list Json)
| JObj (fields : list (string * Json)).

(** [{}] *)
Definition empty_object : Json := JObj [].

(** An [Error] object: [message] and the [code] property the server attaches. *)
Record JsError : Type := mkError {
  message : option string;
  code : option Z
}.

(** [new Error(msg)] *)
Definition new_Error (msg : string) : JsError :=
  {| message := Some msg; code := None |}.

(** [error.code = c] *)
Definition set_code (e : JsError) (c : Z) : JsError :=
  {| message := message e; code := Some c |}.

(** [error.message] as a log payload ([undefined] is dropped to [null]). *)
Definition message_json (e : JsError) : Json :=
  match message e with
  | Some m => JStr m
  | None => JNull
  end.

(** [s.includes(sub)] on strings. *)
Fixpoint includes (s sub : string) : bool :=
  match s with
  | EmptyString => String.prefix sub EmptyString
  | String _ rest => String.prefix sub s || includes rest sub
  end.

(** [s.startsWith(p)] *)
Definition startsWith (s p : string) : bool := String.prefix p s.

(** [error.message?.includes(sub)]: [undefined] (falsy) without a message. *)
Definition message_includes (e : JsError) (sub : string) : bool :=
  match message e with
  | Some m => includes m sub
  | None => false
  end.

(** Truthiness of [process.env.X]: set and not the empty string. *)
Definition truthy (v : option string) : bool :=
  match v with
  | Some s => negb (String.eqb s "")
  | None => false
  end.

(** [process.env.X || dflt] *)
Definition or_default (v : option string) (dflt : string) : string :=
  match v with
  | Some s => if String.eqb s "" then dflt else s
  | None => dflt
  end.

(** [process.env[k] === v] *)
Definition env_is (e : gmap string string) (k v : string) : bool :=
  match e !! k with
  | Some s => String.eqb s v
  | None => false
  end.

(** The members of [MCP_ERROR_CODES] ([error-handler.js]) that the server
    uses. Their integer values are not fixed here. *)
Record ErrorCodes : Type := {
  METHOD_NOT_FOUND : Z;
  CALDAV_ERROR : Z;
  AUTH_ERROR : Z
}.

(** ** The remote session ([tsdavManager]) *)

Inductive CredentialMode : Type := ModePassword | ModeToken | ModeNone.

(** Modelled from the spec: [tsdav-client.js] is not among the sources. The
    specification describes the remote session state as an [initialized]
    flag with a credential mode, set once at startup, whose accessors raise
    on use before initialization. *)
Record RemoteSessionState : Type := {
  initialized : bool;
  credentialMode : CredentialMode
}.

Definition uninitialized_session : RemoteSessionState :=
  {| initialized := false; credentialMode := ModeNone |}.

(** ** Tools and completions *)

(** How an awaited call settles: it returns a value or throws one of [E]. *)
Inductive Outcome (E A : Type) : Type :=
| Returned (a : A)
| Thrown (e : E).
Arguments Returned {E A} a.
Arguments Thrown {E A} e.

(** A call that can only throw [Error] objects. *)
Abbreviation Completion := (Outcome JsError).

(** Any value a tool handler may throw or reject with: [undefined], [null],
    or another value, seen through the two properties the server reads,
    [message] ([None] when the property is [undefined]) and [code]. *)
Inductive Raised : Type :=
| RaisedUndefined
| RaisedNull
| RaisedValue (message : option Json) (code : option Z).

(** An [Error] object as a thrown value. *)
Definition of_error (e : JsError) : Raised :=
  RaisedValue
    match message e with
    | Some m => Some (JStr m)
    | None => None
    end
    (code e).
Coercion of_error : JsError >-> Raised.

(** The [TypeError] of reading [.message] off [undefined] or [null], and of
    calling a missing [includes] (in the engine's wording). *)
Definition TypeError_reading_message (what : string) : JsError :=
  new_Error ("Cannot read properties of " ++ what ++ " (reading 'message')").

Definition TypeError_includes : JsError :=
  new_Error "error.message?.includes is not a function".

(** [error.message]: a [TypeError] on [undefined] and on [null]. *)
Definition read_message (error : Raised) : Completion (option Json) :=
  match error with
  | RaisedUndefined => Thrown (TypeError_reading_message "undefined")
  | RaisedNull => Thrown (TypeError_reading_message "null")
  | RaisedValue m _ => Returned m
  end.

(** [message?.includes(sub)]: [undefined] (falsy) when the message is
    [undefined] or [null], the substring test on a string, the membership
    test on an array, and a [TypeError] on a number, a boolean or an object,
    which have no [includes]. *)
Definition optional_includes (m : option Json) (sub : string) : Completion bool :=
  match m with
  | None | Some JNull => Returned false
  | Some (JStr s) => Returned (includes s sub)
  | Some (JArr items) =>
      Returned
        (existsb
           (fun v => match v with JStr s => String.eqb s sub | _ => false end)
           items)
  | Some (JNum _) | Some (JBool _) | Some (JObj _) => Thrown TypeError_includes
  end.

(** [a || b] on conditions that may throw: [b] is evaluated only when [a]
    is falsy. *)
Definition logical_or {E} (a b : Outcome E bool) : Outcome E bool :=
  match a with
  | Returned true => Returned true
  | Returned false => b
  | Thrown e => Thrown e
  end.

(** [error.message] as a log payload ([undefined] is dropped to [null]). *)
Definition message_payload (m : option Json) : Json := default JNull m.

(** An entry of the [tools] array. The handler reads the process-wide
    remote session, hence its first argument; it may throw any value. *)
Record Tool : Type := {
  name : string;
  description : string;
  inputSchema : Json;
  handler : RemoteSessionState -> Json -> Outcome Raised Json
}.

(** What the [tools/call] handler resolves to: the handler's own result, or
    the object [createToolErrorResponse(error, includeStack)] builds
    ([error-handler.js], represented by its two arguments). *)
Inductive Response : Type :=
| ToolResult (payload : Json)
| ToolErrorResponse (error : Raised) (includeStack : bool).

(** ** Effects *)

Inductive Level : Type := LDebug | LInfo | LWarn | LError.

(** The third argument of the tool-call logger's methods. *)
Record CallMeta : Type := {
  meta_requestId : string;
  meta_transport : string;
  meta_duration : option Z
}.

Inductive Effect : Type :=
| RequestLog (requestId : string) (level : Level)
    (payload : list (string * Json)) (msg : string)
| ServerLog (level : Level) (payload : list (string * Json)) (msg : string)
| ConsoleLog (line : string)
| ConsoleError (line : string)
| LogToolCallStart (toolName : string) (args : Json) (meta : CallMeta)
| LogToolCallSuccess (toolName : string) (args : Json) (result : Json)
    (meta : CallMeta)
| LogToolCallError (toolName : string) (args : Json) (error : Raised)
    (meta : CallMeta)
| GetCalDavClient
| HandlerCall (toolName : string) (args : Json)
| ConsoleErrorValue (line : string) (value : Json)
| TsdavInitialize
| TransportConnect
| TransportClose
| ClearInterval (timer : nat)
| ProcessExit (status : Z).

(** Process-wide state outside the request handlers: the [global.transport]
    and [global.cleanupInterval] slots, what [start] has set up, the number
    of [gracefulShutdown] runs suspended at [await global.transport.close()],
    and the code given to [process.exit], once called. *)
Record ProcessState : Type := {
  global_transport : bool;
  global_cleanupInterval : option nat;
  request_handlers : bool;
  connected : bool;
  signal_handlers : bool;
  closing : nat;
  exit_code : option Z
}.

Definition fresh_process : ProcessState :=
  {| global_transport := false;
     global_cleanupInterval := None;
     request_handlers := false;
     connected := false;
     signal_handlers := false;
     closing := 0%nat;
     exit_code := None |}.

(** The state the server runs in. *)
Record World : Type := {
  effects : list Effect;
  uuid_calls : nat;
  clock_reads : nat;
  session : RemoteSessionState;
  proc : ProcessState
}.

Definition initial_world : World :=
  {| effects := [];
     uuid_calls := 0%nat;
     clock_reads := 0%nat;
     session := uninitialized_session;
     proc := fresh_process |}.

Definition emit (e : Effect) (w : World) : World :=
  {| effects := effects w ++ [e];
     uuid_calls := uuid_calls w;
     clock_reads := clock_reads w;
     session := session w;
     proc := proc w |}.

Definition with_session (s : RemoteSessionState) (w : World) : World :=
  {| effects := effects w;
     uuid_calls := uuid_calls w;
     clock_reads := clock_reads w;
     session := s;
     proc := proc w |}.

Definition with_proc (p : ProcessState) (w : World) : World :=
  {| effects := effects w;
     uuid_calls := uuid_calls w;
     clock_reads := clock_reads w;
     session := session w;
     proc := p |}.

(** ** A state-and-exception monad for [async] bodies *)

(** Computations over the [World] that may throw a value of [E]. *)
Definition Throwing (E A : Type) : Type := World -> Outcome E A * World.

(** Computations that can only throw [Error] objects. *)
Abbreviation M := (Throwing JsError).

Definition ret {E A} (a : A) : Throwing E A := fun w => (Returned a, w).

Definition throw {E A} (e : E) : Throwing E A := fun w => (Thrown e, w).

Definition bind {E A B} (m : Throwing E A) (k : A -> Throwing E B)
  : Throwing E B :=
  fun w =>
    match m w with
    | (Returned a, w') => k a w'
    | (Thrown e, w') => (Thrown e, w')
    end.

(** [try { body } catch (error) { handler }]: the body may throw values of
    [E], the handler values of [F]. *)
Definition try_catch {E F A} (body : Throwing E A) (handler : E -> Throwing F A)
  : Throwing F A :=
  fun w =>
    match body w with
    | (Returned a, w') => (Returned a, w')
    | (Thrown e, w') => handler e w'
    end.

(** An expression without effects that may throw. *)
Definition evaluate {E A} (c : Outcome E A) : Throwing E A := fun w => (c, w).

Declare Scope js_scope.
Delimit Scope js_scope with js.
Notation "x <- m ;; k" := (bind m (fun x => k))
  (at level 100, m at next level, right associativity) : js_scope.
Notation "m ;; k" := (bind m (fun _ => k))
  (at level 100, right associativity) : js_scope.

Definition effect {E} (e : Effect) : Throwing E unit :=
  fun w => (Returned tt, emit e w).

(** ** The request handlers registered by [createMCPServer] *)

(** [params] of a [tools/call] request; [arguments] is optional. *)
Record CallToolRequest : Type := {
  params_name : string;
  params_arguments : option Json
}.

(** A falsy value: [null], [false], [0] and the empty string. *)
Definition falsy (v : Json) : bool :=
  match v with
  | JNull => true
  | JBool b => negb b
  | JNum n => Z.eqb n 0
  | JStr s => String.eqb s ""
  | JArr _ | JObj _ => false
  end.

(** [request.params.arguments || {}] *)
Definition request_args (request : CallToolRequest) : Json :=
  match params_arguments request with
  | Some v => if falsy v then empty_object else v
  | None => empty_object
  end.

(** The configuration object handed to [tsdavManager.initialize]. *)
Record TsdavConfig : Type := {
  serverUrl : string;
  authMethod : string;
  username : option string;
  password : option string;
  clientId : option string;
  clientSecret : option string;
  refreshToken : option string;
  tokenUrl : option string
}.

(** The fields of the tool-call logger that [start] reports. *)
Record ToolCallLogger : Type := {
  enabled : bool;
  outputMode : string;
  logFile : option string
}.

(** What the server reads from its surroundings: the environment, the
    imported [tools] and error codes, the results of [crypto.randomUUID()]
    and [Date.now()] (indexed by the number of earlier calls), and how the
    calls into its collaborators settle: the error an accessor of the remote
    client raises before initialization, [tsdavManager.initialize(config)]
    ([None]: it resolves), [initializeToolCallLogger()] and
    [mcpServer.connect(transport)] ([None]: it resolves). *)
Record Runtime : Type := {
  env : gmap string string;
  tools : list Tool;
  MCP_ERROR_CODES : ErrorCodes;
  randomUUID : nat -> string;
  Date_now : nat -> Z;
  uninitialized_error : JsError;
  tsdav_initialize : TsdavConfig -> option JsError;
  initializeToolCallLogger : Completion ToolCallLogger;
  connect : option JsError
}.

Section Handlers.

Context (rt : Runtime).

Local Open Scope js_scope.

Definition crypto_randomUUID : M string :=
  fun w =>
    (Returned (randomUUID rt (uuid_calls w)),
     {| effects := effects w;
        uuid_calls := S (uuid_calls w);
        clock_reads := clock_reads w;
        session := session w;
        proc := proc w |}).

Definition now {E} : Throwing E Z :=
  fun w =>
    (Returned (Date_now rt (clock_reads w)),
     {| effects := effects w;
        uuid_calls := uuid_calls w;
        clock_reads := S (clock_reads w);
        session := session w;
        proc := proc w |}).

(** Modelled from the spec: [tsdavManager.getCalDavClient()], of
    [tsdav-client.js], an accessor that raises on use before
    initialization. *)
Definition getCalDavClient : M unit :=
  fun w =>
    if initialized (session w)
    then (Returned tt, emit GetCalDavClient w)
    else (Thrown (uninitialized_error rt), emit GetCalDavClient w).

(** [await tool.handler(args)] *)
Definition call_handler (tool : Tool) (toolName : string) (args : Json)
  : Throwing Raised Json :=
  fun w => (handler tool (session w) args, emit (HandlerCall toolName args) w).

(** [tools.map(t => ({ name, description, inputSchema }))], one entry. *)
Definition tool_entry (t : Tool) : Json :=
  JObj [("name", JStr (name t));
        ("description", JStr (description t));
        ("inputSchema", inputSchema t)].

(** The [ListToolsRequestSchema] handler. *)
Definition ListTools_handler : M Json :=
  requestId <- crypto_randomUUID ;;
  effect (RequestLog requestId LDebug [] "tools/list request received") ;;
  let toolList := map tool_entry (tools rt) in
  effect (RequestLog requestId LDebug
            [("count", JNum (Z.of_nat (length toolList)))]
            "Returning tools list") ;;
  ret (JObj [("tools", JArr toolList)]).

(** [const needsTsdav = toolName !== 'list_calendars' && ...] *)
Definition needsTsdav (toolName : string) : bool :=
  negb (String.eqb toolName "list_calendars")
  && negb (String.eqb toolName "list_addressbooks")
  && negb (String.eqb toolName "list_todos").

(** The rewriting of the caught error into [enhancedError], for an error
    whose message is a string or is missing. *)
Definition enhancedError (error : JsError) : JsError :=
  if message_includes error "caldav" || message_includes error "CalDAV" then
    set_code
      (new_Error "CalDAV connection not configured. Please set CALDAV_SERVER_URL, CALDAV_USERNAME, CALDAV_PASSWORD environment variables.")
      (CALDAV_ERROR (MCP_ERROR_CODES rt))
  else if message_includes error "Unauthorized" || message_includes error "401" then
    set_code
      (new_Error "Authentication failed. Please check your CalDAV credentials.")
      (AUTH_ERROR (MCP_ERROR_CODES rt))
  else error.

(** The rewriting of the caught value into [enhancedError] (lines 169-176),
    for any caught value with message [m]. *)
Definition translate (error : Raised) (m : option Json) : Completion Raised :=
  match logical_or (optional_includes m "caldav") (optional_includes m "CalDAV") with
  | Thrown e => Thrown e
  | Returned true =>
      Returned
        (of_error
           (set_code
              (new_Error "CalDAV connection not configured. Please set CALDAV_SERVER_URL, CALDAV_USERNAME, CALDAV_PASSWORD environment variables.")
              (CALDAV_ERROR (MCP_ERROR_CODES rt))))
  | Returned false =>
      match logical_or (optional_includes m "Unauthorized")
              (optional_includes m "401") with
      | Thrown e => Thrown e
      | Returned true =>
          Returned
            (of_error
               (set_code
                  (new_Error "Authentication failed. Please check your CalDAV credentials.")
                  (AUTH_ERROR (MCP_ERROR_CODES rt))))
      | Returned false => Returned error
      end
  end.

(** [process.env.NODE_ENV === 'development'] *)
Definition development : bool := env_is (env rt) "NODE_ENV" "development".

(** [tools.find(t => t.name === toolName)] *)
Definition find_tool (toolName : string) : option Tool :=
  List.find (fun t => String.eqb (name t) toolName) (tools rt).

(** The [CallToolRequestSchema] handler. *)
Definition CallTool_handler (request : CallToolRequest) : M Response :=
  requestId <- crypto_randomUUID ;;
  let toolName := params_name request in
  let args := request_args request in
  effect (RequestLog requestId LInfo
            [("tool", JStr toolName); ("args", args)]
            "tools/call request received") ;;
  match find_tool toolName with
  | None =>
      effect (RequestLog requestId LError [("tool", JStr toolName)]
                "Tool not found") ;;
      throw (set_code (new_Error ("Unknown tool: " ++ toolName))
               (METHOD_NOT_FOUND (MCP_ERROR_CODES rt)))
  | Some tool =>
      startTime <- now ;;
      effect (LogToolCallStart toolName args
                {| meta_requestId := requestId;
                   meta_transport := "stdio";
                   meta_duration := None |}) ;;
      try_catch
        (effect (RequestLog requestId LDebug [("tool", JStr toolName)]
                   "Executing tool") ;;
         (if needsTsdav toolName then
            try_catch getCalDavClient
              (fun tsdavError =>
                 effect (RequestLog requestId LWarn []
                           "CalDAV client not initialized, tool may fail") ;;
                 effect (ConsoleLog
                           ("[DAV-MCP] Warning: CalDAV not initialized for tool '"
                            ++ toolName ++ "'. This may fail.")))
          else ret tt) ;;
         result <- call_handler tool toolName args ;;
         finished <- now ;;
         let duration := finished - startTime in
         effect (RequestLog requestId LInfo [("tool", JStr toolName)]
                   "Tool executed successfully") ;;
         effect (LogToolCallSuccess toolName args result
                   {| meta_requestId := requestId;
                      meta_transport := "stdio";
                      meta_duration := Some duration |}) ;;
         ret (ToolResult result))
        (fun error =>
           finished <- now ;;
           let duration := finished - startTime in
           m <- evaluate (read_message error) ;;
           effect (RequestLog requestId LError
                     [("tool", JStr toolName); ("error", message_payload m)]
                     "Tool execution error") ;;
           enhanced <- evaluate (translate error m) ;;
           effect (LogToolCallError toolName args enhanced
                     {| meta_requestId := requestId;
                        meta_transport := "stdio";
                        meta_duration := Some duration |}) ;;
           ret (ToolErrorResponse enhanced development))
  end.

End Handlers.

(** ** Startup and shutdown *)

Definition set_global_transport (b : bool) (p : ProcessState) : ProcessState :=
  {| global_transport := b;
     global_cleanupInterval := global_cleanupInterval p;
     request_handlers := request_handlers p;
     connected := connected p;
     signal_handlers := signal_handlers p;
     closing := closing p;
     exit_code := exit_code p |}.

Definition set_request_handlers (b : bool) (p : ProcessState) : ProcessState :=
  {| global_transport := global_transport p;
     global_cleanupInterval := global_cleanupInterval p;
     request_handlers := b;
     connected := connected p;
     signal_handlers := signal_handlers p;
     closing := closing p;
     exit_code := exit_code p |}.

Definition set_connected (b : bool) (p : ProcessState) : ProcessState :=
  {| global_transport := global_transport p;
     global_cleanupInterval := global_cleanupInterval p;
     request_handlers := request_handlers p;
     connected := b;
     signal_handlers := signal_handlers p;
     closing := closing p;
     exit_code := exit_code p |}.

Definition set_signal_handlers (b : bool) (p : ProcessState) : ProcessState :=
  {| global_transport := global_transport p;
     global_cleanupInterval := global_cleanupInterval p;
     request_handlers := request_handlers p;
     connected := connected p;
     signal_handlers := b;
     closing := closing p;
     exit_code := exit_code p |}.

Definition set_closing (n : nat) (p : ProcessState) : ProcessState :=
  {| global_transport := global_transport p;
     global_cleanupInterval := global_cleanupInterval p;
     request_handlers := request_handlers p;
     connected := connected p;
     signal_handlers := signal_handlers p;
     closing := n;
     exit_code := exit_code p |}.

Definition set_exit_code (c : Z) (p : ProcessState) : ProcessState :=
  {| global_transport := global_transport p;
     global_cleanupInterval := global_cleanupInterval p;
     request_handlers := request_handlers p;
     connected := connected p;
     signal_handlers := signal_handlers p;
     closing := closing p;
     exit_code := Some c |}.

Definition modify_proc (f : ProcessState -> ProcessState) : M unit :=
  fun w => (Returned tt, with_proc (f (proc w)) w).

(** [process.exit(status)] *)
Definition process_exit (status : Z) : M unit :=
  bind (effect (ProcessExit status)) (fun _ => modify_proc (set_exit_code status)).

(** A template literal's rendering of [error.message]. *)
Definition template_message (e : JsError) : string :=
  default "undefined" (message e).

(** A template literal's rendering of a count. *)
Definition template_nat (n : nat) : string :=
  NilZero.string_of_uint (Nat.to_uint n).

Definition json_of_option (v : option string) : Json :=
  match v with
  | Some s => JStr s
  | None => JNull
  end.

(** [list.forEach(f)] *)
Fixpoint forEach {A} (l : list A) (f : A -> M unit) : M unit :=
  match l with
  | [] => ret tt
  | x :: rest => bind (f x) (fun _ => forEach rest f)
  end.

(** The object [performHealthCheck] returns, without its clock, uptime and
    memory readings. *)
Record Health : Type := {
  health_server : string;
  health_version : string;
  health_transport : string;
  tools_total : nat;
  calendar : nat;
  contacts : nat;
  todos : nat
}.

(** [prefixes.some(p => s.startsWith(p))], for the chains of [||] in
    [performHealthCheck]. *)
Definition startsWith_any (prefixes : list string) (s : string) : bool :=
  existsb (startsWith s) prefixes.

(** The states of the process supervisor. *)
Inductive Phase : Type := Starting | Connected | ShuttingDown | Terminated.

Definition phase (w : World) : Phase :=
  match exit_code (proc w) with
  | Some _ => Terminated
  | None =>
      match closing (proc w) with
      | S _ => ShuttingDown
      | O => if connected (proc w) then Connected else Starting
      end
  end.

(** What triggers the shutdown path once [start] has registered its
    [process.on] handlers. *)
Inductive Trigger : Type :=
| SIGTERM
| SIGINT
| UncaughtException (error : JsError)
| UnhandledRejection (reason : Json).

(** An event of the running process: a shutdown trigger, or the settling of
    the oldest pending [global.transport.close()] ([None]: it resolved). *)
Inductive ProcEvent : Type :=
| Triggered (t : Trigger)
| CloseSettled (outcome : option JsError).

Section Supervisor.

Context (rt : Runtime).

Local Open Scope js_scope.

Definition getenv (k : string) : option string := env rt !! k.

(** Modelled from the spec: [await tsdavManager.initialize(config)], of
    [tsdav-client.js]. On success the remote session is initialized in the
    given credential mode; on failure it is left as it was. *)
Definition tsdavManager_initialize (config : TsdavConfig) (mode : CredentialMode)
  : M unit :=
  effect TsdavInitialize ;;
  match tsdav_initialize rt config with
  | None =>
      fun w => (Returned tt,
                with_session {| initialized := true; credentialMode := mode |} w)
  | Some e => throw e
  end.

Definition initializeTsdav : M unit :=
  try_catch
    (let authMethod := or_default (getenv "AUTH_METHOD") "Basic" in
     (if String.eqb authMethod "OAuth" || String.eqb authMethod "Oauth" then
        effect (ServerLog LInfo [] "Initializing with OAuth2 authentication") ;;
        (if negb (truthy (getenv "GOOGLE_CLIENT_ID"))
            || negb (truthy (getenv "GOOGLE_CLIENT_SECRET"))
            || negb (truthy (getenv "GOOGLE_REFRESH_TOKEN"))
         then throw (new_Error "OAuth2 requires GOOGLE_CLIENT_ID, GOOGLE_CLIENT_SECRET, and GOOGLE_REFRESH_TOKEN")
         else ret tt) ;;
        tsdavManager_initialize
          {| serverUrl := or_default (getenv "GOOGLE_SERVER_URL")
                            "https://apidata.googleusercontent.com/caldav/v2/";
             authMethod := "OAuth";
             username := getenv "GOOGLE_USER";
             password := None;
             clientId := getenv "GOOGLE_CLIENT_ID";
             clientSecret := getenv "GOOGLE_CLIENT_SECRET";
             refreshToken := getenv "GOOGLE_REFRESH_TOKEN";
             tokenUrl := Some (or_default (getenv "GOOGLE_TOKEN_URL")
                                 "https://accounts.google.com/o/oauth2/token") |}
          ModeToken ;;
        effect (ServerLog LInfo [] "OAuth2 clients initialized successfully")
      else
        effect (ServerLog LInfo [] "Initializing with Basic authentication") ;;
        (if negb (truthy (getenv "CALDAV_SERVER_URL"))
            || negb (truthy (getenv "CALDAV_USERNAME"))
            || negb (truthy (getenv "CALDAV_PASSWORD"))
         then throw (new_Error "Basic Auth requires CALDAV_SERVER_URL, CALDAV_USERNAME, and CALDAV_PASSWORD")
         else ret tt) ;;
        tsdavManager_initialize
          {| serverUrl := default "" (getenv "CALDAV_SERVER_URL");
             authMethod := "Basic";
             username := getenv "CALDAV_USERNAME";
             password := getenv "CALDAV_PASSWORD";
             clientId := None;
             clientSecret := None;
             refreshToken := None;
             tokenUrl := None |}
          ModePassword ;;
        effect (ServerLog LInfo [] "Basic Auth clients initialized successfully")) ;;
     effect (ServerLog LInfo [] "tsdav clients initialized successfully"))
    (fun error =>
       effect (ServerLog LError [("error", message_json error)]
                 "Failed to initialize tsdav clients") ;;
       throw error).

(** [createMCPServer()]: both request handlers are registered. *)
Definition createMCPServer : M unit :=
  modify_proc (set_request_handlers true) ;;
  effect (ServerLog LInfo [] "MCP Server created for STDIO transport").

Definition count_tools (prefixes : list string) : nat :=
  length (List.filter (fun t => startsWith_any prefixes (name t)) (tools rt)).

Definition categories_json (health : Health) : Json :=
  JObj [("calendar", JNum (Z.of_nat (calendar health)));
        ("contacts", JNum (Z.of_nat (contacts health)));
        ("todos", JNum (Z.of_nat (todos health)))].

(** The [health] object as it is logged, without its [timestamp], [uptime]
    and [memory] readings. *)
Definition health_json (health : Health) : Json :=
  JObj [("status", JStr "healthy");
        ("server", JStr (health_server health));
        ("version", JStr (health_version health));
        ("transport", JStr (health_transport health));
        ("tools",
         JObj [("total", JNum (Z.of_nat (tools_total health)));
               ("categories", categories_json health)])].

(** [performHealthCheck()] *)
Definition performHealthCheck : M Health :=
  let health :=
    {| health_server := or_default (getenv "MCP_SERVER_NAME") "dav-mcp-stdio";
       health_version := or_default (getenv "MCP_SERVER_VERSION") "2.7.0";
       health_transport := "stdio";
       tools_total := length (tools rt);
       calendar :=
         count_tools ["calendar_"; "list_calendars"; "list_events";
                      "create_event"; "update_event"; "delete_event";
                      "calendar_query"; "make_calendar"; "update_calendar";
                      "delete_calendar"; "calendar_multi_get"];
       contacts :=
         count_tools ["addressbook_"; "list_addressbooks"; "list_contacts";
                      "create_contact"; "update_contact"; "delete_contact";
                      "addressbook_query"; "addressbook_multi_get"];
       todos :=
         count_tools ["todo_"; "list_todos"; "create_todo"; "update_todo";
                      "delete_todo"; "todo_query"; "todo_multi_get"] |} in
  effect (ServerLog LDebug [("health", health_json health)]
            "Health check performed") ;;
  ret health.

Definition hasBasicAuth : bool :=
  truthy (getenv "CALDAV_SERVER_URL") && truthy (getenv "CALDAV_USERNAME")
  && truthy (getenv "CALDAV_PASSWORD").

Definition hasOAuth2 : bool :=
  truthy (getenv "GOOGLE_CLIENT_ID") && truthy (getenv "GOOGLE_CLIENT_SECRET")
  && truthy (getenv "GOOGLE_REFRESH_TOKEN").

(** [start()], lines 250-263: the banner and the missing-credentials
    warning. *)
Definition start_banner : M unit :=
  effect (ConsoleLog "[DAV-MCP] Starting STDIO server...") ;;
  effect (ServerLog LInfo [] "Starting DAV-MCP Server (STDIO mode)...") ;;
  let authMethod := or_default (getenv "AUTH_METHOD") "Basic" in
  if negb hasBasicAuth && negb hasOAuth2 && negb (String.eqb authMethod "Dummy")
  then
    effect (ConsoleLog "[DAV-MCP] Warning: No CalDAV credentials found. Server will start but tools will fail until configured.") ;;
    effect (ConsoleLog "[DAV-MCP] Configure: CALDAV_SERVER_URL, CALDAV_USERNAME, CALDAV_PASSWORD for Basic Auth") ;;
    effect (ConsoleLog "[DAV-MCP] Or configure GOOGLE_* variables for OAuth2") ;;
    effect (ConsoleLog "[DAV-MCP] Or set AUTH_METHOD=Dummy for testing")
  else ret tt.

Definition skipping_line : string :=
  "[DAV-MCP] Skipping tsdav initialization - no credentials provided".

Definition init_failed_line : string :=
  "[DAV-MCP] CalDAV initialization failed, but continuing with limited functionality:".

(** [start()], lines 265-276: the inner [try]/[catch] around the
    initialization of the remote session. *)
Definition start_tsdav : M unit :=
  try_catch
    (if hasBasicAuth || hasOAuth2 then initializeTsdav
     else effect (ConsoleLog skipping_line))
    (fun tsdavError =>
       effect (ConsoleLog init_failed_line) ;;
       effect (ConsoleLog ("[DAV-MCP] Error: " ++ template_message tsdavError))).

(** [start()], lines 339-344: the tools are listed in debug mode. *)
Definition log_registered_tools : M unit :=
  if env_is (env rt) "LOG_LEVEL" "debug" then
    forEach (tools rt)
      (fun tool =>
         effect (ServerLog LDebug
                   [("name", JStr (name tool));
                    ("description", JStr (description tool))]
                   "Tool registered"))
  else ret tt.

(** The [onerror] and [onclose] callbacks [start] gives to the transport
    (lines 294-302). They are called by the SDK's transport, which is not
    part of this repository; both only log. *)
Definition transport_onerror (error : JsError) : M unit :=
  effect (ConsoleErrorValue "[DAV-MCP] Transport error:" (message_json error)) ;;
  effect (ServerLog LError [("error", message_json error)]
            "STDIO transport error").

Definition transport_onclose : M unit :=
  effect (ConsoleLog "[DAV-MCP] Transport closed") ;;
  effect (ServerLog LInfo [] "STDIO transport closed").

(** [start()], lines 278-344: the tool-call logger, the server, the transport
    and its connection, the [process.on] handlers, and the startup report.
    The callbacks given to the transport are [transport_onerror] and
    [transport_onclose]. *)
Definition start_serve : M unit :=
  toolCallLogger <- (fun w => (initializeToolCallLogger rt, w)) ;;
  effect (ServerLog LInfo
            [("enabled", JBool (enabled toolCallLogger));
             ("mode", JStr (outputMode toolCallLogger));
             ("logFile", json_of_option (logFile toolCallLogger))]
            "Tool call logger initialized") ;;
  createMCPServer ;;
  modify_proc (set_global_transport true) ;;
  effect TransportConnect ;;
  match connect rt with
  | Some e => throw e
  | None => modify_proc (set_connected true)
  end ;;
  modify_proc (set_signal_handlers true) ;;
  health <- performHealthCheck ;;
  effect (ConsoleLog "[DAV-MCP] ✅ Server started successfully!") ;;
  effect (ConsoleLog ("[DAV-MCP] Server: " ++ health_server health ++ " v"
                      ++ health_version health)) ;;
  effect (ConsoleLog ("[DAV-MCP] Transport: " ++ health_transport health)) ;;
  effect (ConsoleLog ("[DAV-MCP] Tools: " ++ template_nat (tools_total health)
                      ++ " (Calendar: " ++ template_nat (calendar health)
                      ++ ", Contacts: " ++ template_nat (contacts health)
                      ++ ", Todos: " ++ template_nat (todos health) ++ ")")) ;;
  effect (ServerLog LInfo
            [("server", JStr (health_server health));
             ("version", JStr (health_version health));
             ("transport", JStr (health_transport health));
             ("tools", JNum (Z.of_nat (tools_total health)));
             ("categories", categories_json health)]
            "DAV-MCP Server ready (STDIO mode)") ;;
  log_registered_tools.

(** [start()], lines 346-354: the outer [catch]. The line printing
    [error.stack] in development mode is left out. *)
Definition start_failed (error : JsError) : M unit :=
  effect (ConsoleError "[DAV-MCP] ❌ Failed to start server:") ;;
  effect (ConsoleError ("[DAV-MCP] Error: " ++ template_message error)) ;;
  effect (ServerLog LError [("error", message_json error)]
            "Failed to start server") ;;
  process_exit 1.

(** [start()] *)
Definition start : M unit :=
  try_catch (start_banner ;; start_tsdav ;; start_serve) start_failed.

(** [await global.transport.close()], settling as [outcome] says. The call
    is into the SDK's transport: what the transport does inside [close()],
    such as calling [transport_onclose], is the SDK's and is not part of the
    trace. *)
Definition transport_close (outcome : option JsError) : M unit :=
  effect TransportClose ;;
  match outcome with
  | None => ret tt
  | Some e => throw e
  end.

Definition clear_cleanupInterval : M unit :=
  fun w =>
    match global_cleanupInterval (proc w) with
    | Some timer => (Returned tt, emit (ClearInterval timer) w)
    | None => (Returned tt, w)
    end.

Definition received_shutdown_signal (signal : string) : M unit :=
  effect (ServerLog LInfo [("signal", JStr signal)]
            "Received shutdown signal, starting graceful shutdown...").

(** The rest of the [try] block after the transport is dealt with. *)
Definition shutdown_completed : M unit :=
  clear_cleanupInterval ;;
  effect (ServerLog LInfo [] "Graceful shutdown completed") ;;
  process_exit 0.

(** The [catch] block of [gracefulShutdown]. *)
Definition shutdown_failed (error : JsError) : M unit :=
  effect (ServerLog LError [("error", message_json error)]
            "Error during graceful shutdown") ;;
  process_exit 1.

(** [gracefulShutdown(signal)], run to completion with nothing else
    happening while it awaits the transport. *)
Definition gracefulShutdown (signal : string) (outcome : option JsError) : M unit :=
  received_shutdown_signal signal ;;
  try_catch
    ((fun w =>
        if global_transport (proc w) then
          (transport_close outcome ;;
           effect (ServerLog LInfo [] "STDIO transport closed")) w
        else ret tt w) ;;
     shutdown_completed)
    shutdown_failed.

(** [gracefulShutdown(signal)] up to its [await]: with a transport, [close()]
    is called and the run is suspended; without one, the run completes. *)
Definition gracefulShutdown_begin (signal : string) : M unit :=
  received_shutdown_signal signal ;;
  (fun w =>
     if global_transport (proc w) then
       (effect TransportClose ;;
        modify_proc (fun p => set_closing (S (closing p)) p)) w
     else try_catch shutdown_completed shutdown_failed w).

(** A suspended run of [gracefulShutdown], resumed when [close()] settles. *)
Definition gracefulShutdown_resume (outcome : option JsError) : M unit :=
  modify_proc (fun p => set_closing (pred (closing p)) p) ;;
  try_catch
    (match outcome with
     | None => effect (ServerLog LInfo [] "STDIO transport closed")
     | Some e => throw e
     end ;;
     shutdown_completed)
    shutdown_failed.

Definition signal_name (t : Trigger) : string :=
  match t with
  | SIGTERM => "SIGTERM"
  | SIGINT => "SIGINT"
  | UncaughtException _ => "uncaughtException"
  | UnhandledRejection _ => "unhandledRejection"
  end.

(** What the [uncaughtException] and [unhandledRejection] handlers print
    before they call [gracefulShutdown]. *)
Definition report_trigger (t : Trigger) : M unit :=
  match t with
  | SIGTERM | SIGINT => ret tt
  | UncaughtException error =>
      effect (ConsoleError ("[DAV-MCP] Uncaught exception: " ++ template_message error)) ;;
      effect (ServerLog LError [("error", message_json error)] "Uncaught exception")
  | UnhandledRejection reason =>
      effect (ConsoleErrorValue "[DAV-MCP] Unhandled promise rejection:" reason) ;;
      effect (ServerLog LError [("reason", reason)] "Unhandled promise rejection")
  end.

(** The [process.on] handlers registered by [start], up to the [await]. *)
Definition on_trigger (t : Trigger) : M unit :=
  report_trigger t ;;
  gracefulShutdown_begin (signal_name t).

(** One event of the running process: a trigger delivered to the
    [process.on] handlers, or the settling of a pending [close()]. The
    handlers are those registered by [start] (lines 308-322), after
    [global.transport] is set; [step] describes what they do when called.
    Nothing runs once the process has exited. *)
Definition step (w : World) (ev : ProcEvent) : World :=
  match exit_code (proc w) with
  | Some _ => w
  | None =>
      match ev with
      | Triggered t => snd (on_trigger t w)
      | CloseSettled outcome =>
          match closing (proc w) with
          | O => w
          | S _ => snd (gracefulShutdown_resume outcome w)
          end
      end
  end.

Definition run (w : World) (evs : list ProcEvent) : World :=
  fold_left step evs w.

End Supervisor.

(** ** Descriptions of traces *)

(** The calls to the tool-call logger and to the tool's handler. *)
Definition is_lifecycle (e : Effect) : bool :=
  match e with
  | LogToolCallStart _ _ _ | LogToolCallSuccess _ _ _ _
  | LogToolCallError _ _ _ _ | HandlerCall _ _ => true
  | _ => false
  end.

Definition lifecycle (l : list Effect) : list Effect := List.filter is_lifecycle l.

(** The probes of the remote session and the calls to the tool's handler. *)
Definition is_probe_or_call (e : Effect) : bool :=
  match e with
  | GetCalDavClient | HandlerCall _ _ => true
  | _ => false
  end.

Definition is_start (e : Effect) : bool :=
  match e with
  | LogToolCallStart _ _ _ => true
  | _ => false
  end.

Definition start_meta (requestId : string) : CallMeta :=
  {| meta_requestId := requestId; meta_transport := "stdio"; meta_duration := None |}.

Definition end_meta (requestId : string) (duration : Z) : CallMeta :=
  {| meta_requestId := requestId;
     meta_transport := "stdio";
     meta_duration := Some duration |}.

(** The warning pair emitted when the probe of the remote session fails. *)
Definition uninitialized_warning (requestId toolName : string) : list Effect :=
  [RequestLog requestId LWarn [] "CalDAV client not initialized, tool may fail";
   ConsoleLog ("[DAV-MCP] Warning: CalDAV not initialized for tool '"
               ++ toolName ++ "'. This may fail.")].

(** What a [tools/call] request for a registered tool adds to the trace
    around the call of the handler, and what it resolves to, in terms of how
    the handler settles. *)
Definition probe_effects (requestId toolName : string) (s : RemoteSessionState)
  : list Effect :=
  if needsTsdav toolName then
    GetCalDavClient ::
    (if initialized s then [] else uninitialized_warning requestId toolName)
  else [].

(** What the [catch] block of the [tools/call] handler makes of a caught
    value: the enhanced error it reports, or the [TypeError] that escapes
    from it. *)
Definition caught (rt : Runtime) (error : Raised) : Completion Raised :=
  match read_message error with
  | Thrown e => Thrown e
  | Returned m => translate rt error m
  end.

(** The caught values on which the [catch] block itself throws: [undefined],
    [null], and values whose message is a number, a boolean or an object. *)
Definition unreadable (error : Raised) : bool :=
  match error with
  | RaisedUndefined | RaisedNull => true
  | RaisedValue (Some (JNum _)) _
  | RaisedValue (Some (JBool _)) _
  | RaisedValue (Some (JObj _)) _ => true
  | RaisedValue _ _ => false
  end.

Definition failure_effects (rt : Runtime) (requestId toolName : string)
    (args : Json) (duration : Z) (error : Raised) : list Effect :=
  match read_message error with
  | Thrown _ => []
  | Returned m =>
      RequestLog requestId LError
        [("tool", JStr toolName); ("error", message_payload m)]
        "Tool execution error"
      :: match translate rt error m with
         | Returned enhanced =>
             [LogToolCallError toolName args enhanced (end_meta requestId duration)]
         | Thrown _ => []
         end
  end.

Definition terminal_effects (rt : Runtime) (requestId toolName : string)
    (args : Json) (duration : Z) (outcome : Outcome Raised Json) : list Effect :=
  match outcome with
  | Returned result =>
      [RequestLog requestId LInfo [("tool", JStr toolName)]
         "Tool executed successfully";
       LogToolCallSuccess toolName args result (end_meta requestId duration)]
  | Thrown error => failure_effects rt requestId toolName args duration error
  end.

(** The terminal lifecycle event of a call, if one is recorded. *)
Definition terminal_events (rt : Runtime) (requestId toolName : string)
    (args : Json) (duration : Z) (outcome : Outcome Raised Json) : list Effect :=
  match outcome with
  | Returned result =>
      [LogToolCallSuccess toolName args result (end_meta requestId duration)]
  | Thrown error =>
      match caught rt error with
      | Returned enhanced =>
          [LogToolCallError toolName args enhanced (end_meta requestId duration)]
      | Thrown _ => []
      end
  end.

Definition response_of (rt : Runtime) (outcome : Outcome Raised Json)
  : Completion Response :=
  match outcome with
  | Returned result => Returned (ToolResult result)
  | Thrown error =>
      match caught rt error with
      | Returned enhanced =>
          Returned (ToolErrorResponse enhanced (development rt))
      | Thrown e => Thrown e
      end
  end.

(** Fields of a JavaScript object, in insertion order, and property lookup. *)
Definition keys (j : Json) : list string :=
  match j with
  | JObj fields => map fst fields
  | _ => []
  end.

Definition property (k : string) (j : Json) : option Json :=
  match j with
  | JObj fields =>
      match List.find (fun kv => String.eqb (fst kv) k) fields with
      | Some kv => Some (snd kv)
      | None => None
      end
  | _ => None
  end.

(** The error translation as the specification words it, with the code it
    calls INTERNAL as a parameter: configuration error, else authentication
    error, else the raw error tagged INTERNAL. *)
Definition translator_spec (codes : ErrorCodes) (INTERNAL : Z) (raw : JsError)
  : JsError :=
  if message_includes raw "caldav" || message_includes raw "CalDAV" then
    {| message := Some "CalDAV connection not configured. Please set CALDAV_SERVER_URL, CALDAV_USERNAME, CALDAV_PASSWORD environment variables.";
       code := Some (CALDAV_ERROR codes) |}
  else if message_includes raw "Unauthorized" || message_includes raw "401" then
    {| message := Some "Authentication failed. Please check your CalDAV credentials.";
       code := Some (AUTH_ERROR codes) |}
  else {| message := message raw; code := Some INTERNAL |}.


(** The two templated errors of the translation. *)
Definition configuration_error (rt : Runtime) : JsError :=
  {| message := Some "CalDAV connection not configured. Please set CALDAV_SERVER_URL, CALDAV_USERNAME, CALDAV_PASSWORD environment variables.";
     code := Some (CALDAV_ERROR (MCP_ERROR_CODES rt)) |}.

Definition authentication_error (rt : Runtime) : JsError :=
  {| message := Some "Authentication failed. Please check your CalDAV credentials.";
     code := Some (AUTH_ERROR (MCP_ERROR_CODES rt)) |}.

(** The trace of [w'] continues the trace of [w]. *)
Definition extends (w w' : World) : Prop :=
  exists l, effects w' = (effects w ++ l)%list.

(** A computation that only appends to the trace. *)
Definition only_logs {A} (m : M A) : Prop :=
  forall w,
    extends w (snd (m w))
    /\ session (snd (m w)) = session w
    /\ proc (snd (m w)) = proc w.

(** The catalogue [tools/list] answers with. *)
Definition catalogue (rt : Runtime) : Json :=
  JObj [("tools", JArr (map tool_entry (tools rt)))].

(** Number of calls of [close()] on the transport in a trace. *)
Definition close_calls (l : list Effect) : nat :=
  length (List.filter (fun e => match e with TransportClose => true | _ => false end) l).

(** ** Sample data for the examples *)

Definition sample_codes : ErrorCodes :=
  {| METHOD_NOT_FOUND := -32601; CALDAV_ERROR := -32000; AUTH_ERROR := -32001 |}.

Definition object_schema : Json := JObj [("type", JStr "object")].

Definition list_calendars_tool : Tool :=
  {| name := "list_calendars";
     description := "List all available calendars";
     inputSchema := object_schema;
     handler := fun s _ =>
       if initialized s then Returned (JArr [])
       else Thrown (of_error (new_Error "CalDAV client not initialized. Call initialize() first.")) |}.

Definition create_event_tool : Tool :=
  {| name := "create_event";
     description := "Create a calendar event";
     inputSchema := object_schema;
     handler := fun s _ =>
       if initialized s then Returned (JObj [("url", JStr "/cal/1.ics")])
       else Thrown (of_error (new_Error "CalDAV client not initialized. Call initialize() first.")) |}.

Definition list_contacts_tool : Tool :=
  {| name := "list_contacts";
     description := "List the contacts of an address book";
     inputSchema := object_schema;
     handler := fun s _ =>
       if initialized s then Returned (JArr [])
       else Thrown (of_error (new_Error "CardDAV client not initialized. Call initialize() first.")) |}.

Definition sample_uuid (n : nat) : string := "req-" ++ template_nat n.

Definition sample_runtime (vars : gmap string string) : Runtime :=
  {| env := vars;
     tools := [list_calendars_tool; create_event_tool; list_contacts_tool];
     MCP_ERROR_CODES := sample_codes;
     randomUUID := sample_uuid;
     Date_now := fun n => 1000 + 5 * Z.of_nat n;
     uninitialized_error := new_Error "CalDAV client not initialized. Call initialize() first.";
     tsdav_initialize := fun _ => None;
     initializeToolCallLogger :=
       Returned {| enabled := true; outputMode := "console"; logFile := None |};
     connect := None |}.

(** A process started without any credentials. *)
Definition offline_runtime : Runtime := sample_runtime ∅.

(** The same surroundings with a remote server that rejects the session. *)
Definition rejecting_runtime (vars : gmap string string) : Runtime :=
  {| env := vars;
     tools := [list_calendars_tool; create_event_tool; list_contacts_tool];
     MCP_ERROR_CODES := sample_codes;
     randomUUID := sample_uuid;
     Date_now := fun n => 1000 + 5 * Z.of_nat n;
     uninitialized_error := new_Error "CalDAV client not initialized. Call initialize() first.";
     tsdav_initialize := fun _ => Some (new_Error "401 Unauthorized");
     initializeToolCallLogger :=
       Returned {| enabled := true; outputMode := "console"; logFile := None |};
     connect := None |}.

(** A registry with a tool whose handler rejects without a reason
    ([return Promise.reject()]) and a tool that throws a status object
    ([throw { message: 404 }]). *)
Definition delete_event_tool : Tool :=
  {| name := "delete_event";
     description := "Delete a calendar event";
     inputSchema := object_schema;
     handler := fun _ _ => Thrown RaisedUndefined |}.

Definition update_event_tool : Tool :=
  {| name := "update_event";
     description := "Update a calendar event";
     inputSchema := object_schema;
     handler := fun _ _ => Thrown (RaisedValue (Some (JNum 404)) None) |}.

Definition faulty_runtime : Runtime :=
  {| env := ∅;
     tools := [list_calendars_tool; delete_event_tool; update_event_tool];
     MCP_ERROR_CODES := sample_codes;
     randomUUID := sample_uuid;
     Date_now := fun n => 1000 + 5 * Z.of_nat n;
     uninitialized_error := new_Error "CalDAV client not initialized. Call initialize() first.";
     tsdav_initialize := fun _ => None;
     initializeToolCallLogger :=
       Returned {| enabled := true; outputMode := "console"; logFile := None |};
     connect := None |}.

Definition basic_env : gmap string string :=
  {[ "CALDAV_SERVER_URL" := "https://dav.example.com";
     "CALDAV_USERNAME" := "admin";
     "CALDAV_PASSWORD" := "secret" ]}.

(** The process after a startup with password credentials, and the same
    process once SIGTERM has arrived and [close()] is pending. *)
Definition connected_world : World :=
  snd (start (sample_runtime basic_env) initial_world).

Definition shutting_down_world : World :=
  run connected_world [Triggered SIGTERM].

Definition call (toolName : string) : CallToolRequest :=
  {| params_name := toolName; params_arguments := Some empty_object |}.

(** ** Bookkeeping of a request *)

(** The request identifier an effect is tagged with, if it has one. *)
Definition effect_requestId (e : Effect) : option string :=
  match e with
  | RequestLog requestId _ _ _ => Some requestId
  | LogToolCallStart _ _ meta
  | LogToolCallSuccess _ _ _ meta
  | LogToolCallError _ _ _ meta => Some (meta_requestId meta)
  | _ => None
  end.

(** The duration a terminal lifecycle event reports. *)
Definition terminal_duration (e : Effect) : option Z :=
  match e with
  | LogToolCallSuccess _ _ _ meta | LogToolCallError _ _ _ meta =>
      meta_duration meta
  | _ => None
  end.

(** What [createToolErrorResponse] is told about the stack. *)
Definition response_includes_stack (r : Response) : bool :=
  match r with
  | ToolErrorResponse _ includeStack => includeStack
  | ToolResult _ => false
  end.

(** Either rule of the error translation applies to the message. *)
Definition translated (error : JsError) : bool :=
  (message_includes error "caldav" || message_includes error "CalDAV")
  || (message_includes error "Unauthorized" || message_includes error "401").

(** ** The configuration of the remote session *)

(** Number of calls of [tsdavManager.initialize] in a trace. *)
Definition count_initialize (l : list Effect) : nat :=
  length (List.filter (fun e => match e with TsdavInitialize => true | _ => false end) l).

(** [authMethod === 'OAuth' || authMethod === 'Oauth'] in [initializeTsdav]. *)
Definition selects_oauth (rt : Runtime) : bool :=
  String.eqb (or_default (getenv rt "AUTH_METHOD") "Basic") "OAuth"
  || String.eqb (or_default (getenv rt "AUTH_METHOD") "Basic") "Oauth".

(** The credentials [initializeTsdav] insists on for the selected method. *)
Definition selected_credentials (rt : Runtime) : bool :=
  if selects_oauth rt then hasOAuth2 rt else hasBasicAuth rt.

(** The two objects [initializeTsdav] hands to [tsdavManager.initialize]. *)
Definition oauth_config (rt : Runtime) : TsdavConfig :=
  {| serverUrl := or_default (getenv rt "GOOGLE_SERVER_URL")
                    "https://apidata.googleusercontent.com/caldav/v2/";
     authMethod := "OAuth";
     username := getenv rt "GOOGLE_USER";
     password := None;
     clientId := getenv rt "GOOGLE_CLIENT_ID";
     clientSecret := getenv rt "GOOGLE_CLIENT_SECRET";
     refreshToken := getenv rt "GOOGLE_REFRESH_TOKEN";
     tokenUrl := Some (or_default (getenv rt "GOOGLE_TOKEN_URL")
                         "https://accounts.google.com/o/oauth2/token") |}.

Definition basic_config (rt : Runtime) : TsdavConfig :=
  {| serverUrl := default "" (getenv rt "CALDAV_SERVER_URL");
     authMethod := "Basic";
     username := getenv rt "CALDAV_USERNAME";
     password := getenv rt "CALDAV_PASSWORD";
     clientId := None;
     clientSecret := None;
     refreshToken := None;
     tokenUrl := None |}.

Definition selected_config (rt : Runtime) : TsdavConfig :=
  if selects_oauth rt then oauth_config rt else basic_config rt.

Definition selected_mode (rt : Runtime) : CredentialMode :=
  if selects_oauth rt then ModeToken else ModePassword.

Definition missing_credentials_error (rt : Runtime) : JsError :=
  if selects_oauth rt then
    new_Error "OAuth2 requires GOOGLE_CLIENT_ID, GOOGLE_CLIENT_SECRET, and GOOGLE_REFRESH_TOKEN"
  else
    new_Error "Basic Auth requires CALDAV_SERVER_URL, CALDAV_USERNAME, and CALDAV_PASSWORD".

(** Google credentials only, with AUTH_METHOD left unset. *)
Definition google_env : gmap string string :=
  {[ "GOOGLE_CLIENT_ID" := "id.apps.googleusercontent.com";
     "GOOGLE_CLIENT_SECRET" := "secret";
     "GOOGLE_REFRESH_TOKEN" := "token" ]}.


(** ** The categories of the health report *)

(** The name prefixes [performHealthCheck] counts under each category. *)
Definition calendar_prefixes : list string :=
  ["calendar_"; "list_calendars"; "list_events"; "create_event";
   "update_event"; "delete_event"; "calendar_query"; "make_calendar";
   "update_calendar"; "delete_calendar"; "calendar_multi_get"].

Definition contact_prefixes : list string :=
  ["addressbook_"; "list_addressbooks"; "list_contacts"; "create_contact";
   "update_contact"; "delete_contact"; "addressbook_query";
   "addressbook_multi_get"].

Definition todo_prefixes : list string :=
  ["todo_"; "list_todos"; "create_todo"; "update_todo"; "delete_todo";
   "todo_query"; "todo_multi_get"].

(** No string of [P] is a prefix of a string of [Q], nor the other way. *)
Definition incomparable (P Q : list string) : bool :=
  forallb
    (fun p =>
       forallb (fun q => negb (String.prefix p q) && negb (String.prefix q p)) Q)
    P.

(** The tool is counted under one of the three categories. *)
Definition categorised (t : Tool) : bool :=
  startsWith_any calendar_prefixes (name t)
  || startsWith_any contact_prefixes (name t)
  || startsWith_any todo_prefixes (name t).

(** ** Shutdown traces *)

(** What a resumed run of [gracefulShutdown] adds to the trace. *)
Definition release_effects (interval : option nat) (outcome : option JsError)
  : list Effect :=
  match outcome with
  | None =>
      ([ServerLog LInfo [] "STDIO transport closed"]
       ++ match interval with
          | Some timer => [ClearInterval timer]
          | None => []
          end
       ++ [ServerLog LInfo [] "Graceful shutdown completed"; ProcessExit 0])%list
  | Some e =>
      [ServerLog LError [("error", message_json e)]
         "Error during graceful shutdown";
       ProcessExit 1]
  end.

(** A process with a periodic task registered under timer 7. *)
Definition with_interval (w : World) : World :=
  with_proc
    {| global_transport := global_transport (proc w);
       global_cleanupInterval := Some 7%nat;
       request_handlers := request_handlers (proc w);
       connected := connected (proc w);
       signal_handlers := signal_handlers (proc w);
       closing := closing (proc w);
       exit_code := exit_code (proc w) |} w.

(** ** The test harness of the STDIO server ([src/unnamed/part_000]) *)

(** A JavaScript object used as a record of a test: a finite map from
    property names to values. *)
Abbreviation TestRecord := (gmap string Json).

(** The fields of [class TestResult]. *)
Record TestResult : Type := {
  passed : nat;
  failed : nat;
  tests : list TestRecord
}.

(** What the harness prints, by the values it interpolates; headings are
    given without their leading blank line and pictograph. *)
Inductive Report : Type :=
| Heading (title : string)
| PassLine (testName : string)
| FailLine (testName : string) (reason : string)
| Totals (passedCount total failedCount : nat)
| FailedTests
| FailedTest (testName : option Json) (reason : option Json).

(** A [TestResult] object together with the console. *)
Record Harness : Type := {
  result : TestResult;
  report : list Report
}.

(** [new TestResult()] *)
Definition new_TestResult : TestResult :=
  {| passed := 0%nat; failed := 0%nat; tests := [] |}.

Definition new_Harness : Harness :=
  {| result := new_TestResult; report := [] |}.

Definition console_log (line : Report) (h : Harness) : Harness :=
  {| result := result h; report := report h ++ [line] |}.

(** [{ name, status, ...details }]: the properties of [details] win. *)
Definition pass_record (testName : string) (details : TestRecord) : TestRecord :=
  details ∪ <["name" := JStr testName]> (<["status" := JStr "PASS"]> ∅).

(** [{ name, status, error: error.message, ...details }] *)
Definition fail_record (testName : string) (error : JsError)
    (details : TestRecord) : TestRecord :=
  details
  ∪ <["name" := JStr testName]>
      (<["status" := JStr "FAIL"]> (<["error" := message_json error]> ∅)).

(** [result.pass(name, details)] *)
Definition pass (testName : string) (details : TestRecord) (h : Harness) : Harness :=
  console_log (PassLine testName)
    {| result :=
         {| passed := S (passed (result h));
            failed := failed (result h);
            tests := tests (result h) ++ [pass_record testName details] |};
       report := report h |}.

(** [result.fail(name, error, details)] *)
Definition fail (testName : string) (error : JsError) (details : TestRecord)
    (h : Harness) : Harness :=
  console_log (FailLine testName (template_message error))
    {| result :=
         {| passed := passed (result h);
            failed := S (failed (result h));
            tests := tests (result h) ++ [fail_record testName error details] |};
       report := report h |}.

(** [t.status === status] *)
Definition has_status (status : string) (t : TestRecord) : bool :=
  match t !! "status" with
  | Some (JStr s) => String.eqb s status
  | _ => false
  end.

(** [result.summary()]: the report and the verdict [this.failed === 0]. *)
Definition summary (h : Harness) : bool * Harness :=
  let r := result h in
  let total := (passed r + failed r)%nat in
  let h1 := console_log (Totals (passed r) total (failed r)) h in
  let h2 :=
    match failed r with
    | O => h1
    | S _ =>
        fold_left
          (fun acc t => console_log (FailedTest (t !! "name") (t !! "error")) acc)
          (List.filter (has_status "FAIL") (tests r))
          (console_log FailedTests h1)
    end in
  (Nat.eqb (failed r) 0, h2).

(** A call of [pass] or of [fail]. *)
Inductive TestOp : Type :=
| DoPass (testName : string) (details : TestRecord)
| DoFail (testName : string) (error : JsError) (details : TestRecord).

Definition apply_op (h : Harness) (op : TestOp) : Harness :=
  match op with
  | DoPass testName details => pass testName details h
  | DoFail testName error details => fail testName error details h
  end.

Definition apply_ops (h : Harness) (ops : list TestOp) : Harness :=
  fold_left apply_op ops h.

Definition is_pass (op : TestOp) : bool :=
  match op with
  | DoPass _ _ => true
  | DoFail _ _ _ => false
  end.

Definition op_details (op : TestOp) : TestRecord :=
  match op with
  | DoPass _ details | DoFail _ _ details => details
  end.

Definition is_failed_test (line : Report) : bool :=
  match line with
  | FailedTest _ _ => true
  | _ => false
  end.

(** [list.join(', ')] *)
Definition join (l : list string) : string := String.concat ", " l.

Definition json_strings (l : list string) : Json := JArr (map JStr l).

Definition requiredVars : list string :=
  ["CALDAV_SERVER_URL"; "CALDAV_USERNAME"; "CALDAV_PASSWORD"].

Definition optionalVars : list string :=
  ["MCP_SERVER_NAME"; "MCP_SERVER_VERSION"; "LOG_LEVEL"].

(** [testEnvironmentConfig(result)], over the environment it reads. *)
Definition testEnvironmentConfig (vars : gmap string string) (h : Harness)
  : Harness :=
  let h0 := console_log (Heading "Testing Environment Configuration...") h in
  let missingVars := List.filter (fun v => negb (truthy (vars !! v))) requiredVars in
  let h1 :=
    if Nat.eqb (length missingVars) 0 then
      pass "Required Environment Variables"
        {[ "variables" := json_strings requiredVars ]} h0
    else
      fail "Required Environment Variables"
        (new_Error ("Missing: " ++ join missingVars)) ∅ h0 in
  let presentOptionalVars := List.filter (fun v => truthy (vars !! v)) optionalVars in
  if Nat.ltb 0 (length presentOptionalVars) then
    pass "Optional Environment Variables"
      (<["present" := json_strings presentOptionalVars]>
         {[ "count" := JNum (Z.of_nat (length presentOptionalVars)) ]}) h1
  else
    pass "Optional Environment Variables (None Set)"
      {[ "note" := JStr "Using defaults is fine" ]} h1.

(** The two functions of [fs] the harness calls. *)
Record FileSystem : Type := {
  existsSync : string -> bool;
  readFileSync : string -> Completion string
}.

Definition requiredFiles : list string :=
  ["src/server-stdio.js"; "src/index.js"; "src/tsdav-client.js";
   "src/tools/index.js"; "src/logger.js"; "src/error-handler.js"].

Definition requiredImports : list string :=
  ["StdioServerTransport"; "@modelcontextprotocol/sdk"; "tsdavManager";
   "tools"; "logger"].

(** [content.includes('start()') || content.includes('async function start')] *)
Definition has_main_function (content : string) : bool :=
  includes content "start()" || includes content "async function start".

(** [testFileStructure(result)], over the file system it reads. A failing
    read is caught by the function's own [catch]. *)
Definition testFileStructure (fs : FileSystem) (h : Harness) : Harness :=
  let h0 := console_log (Heading "Testing File Structure...") h in
  let existingFiles := List.filter (existsSync fs) requiredFiles in
  let h1 :=
    if Nat.eqb (length existingFiles) (length requiredFiles) then
      pass "Required Files Present" {[ "files" := json_strings existingFiles ]} h0
    else
      fail "Required Files Missing"
        (new_Error
           ("Missing: "
            ++ join (List.filter (fun f => negb (existsSync fs f)) requiredFiles)))
        ∅ h0 in
  if existsSync fs "src/server-stdio.js" then
    match readFileSync fs "src/server-stdio.js" with
    | Thrown error => fail "File Structure" error ∅ h1
    | Returned content =>
        let missingImports :=
          List.filter (fun imp => negb (includes content imp)) requiredImports in
        let h2 :=
          if Nat.eqb (length missingImports) 0 then
            pass "Server-STDIO.js Imports"
              {[ "imports" := json_strings requiredImports ]} h1
          else
            fail "Server-STDIO.js Imports"
              (new_Error ("Missing imports: " ++ join missingImports)) ∅ h1 in
        if has_main_function content then
          pass "Server-STDIO.js Main Function" ∅ h2
        else
          fail "Server-STDIO.js Main Function"
            (new_Error "No start function found") ∅ h2
    end
  else h1.

(** A run of the harness: two passes and one failure. *)
Definition sample_ops : list TestOp :=
  [DoPass "Required Files Present" {[ "files" := json_strings requiredFiles ]};
   DoFail "Tools List Timeout"
     (new_Error "No response received within 10 seconds") ∅;
   DoPass "Tool Execution" {[ "responseType" := JStr "result" ]}].

(** * Properties *)

(** ** The [tools/call] handler on a registered tool *)

Section Dispatch.

Context (rt : Runtime).

(** A request for a registered tool: what it settles to and what it does. *)
Lemma CallTool_handler_registered request w tool :
  find_tool rt (params_name request) = Some tool ->
  let toolName := params_name request in
  let args := request_args request in
  let requestId := randomUUID rt (uuid_calls w) in
  let duration := Date_now rt (S (clock_reads w)) - Date_now rt (clock_reads w) in
  let outcome := handler tool (session w) args in
  fst (CallTool_handler rt request w) = response_of rt outcome
  /\ effects (snd (CallTool_handler rt request w)) =
       (effects w
        ++ [RequestLog requestId LInfo [("tool", JStr toolName); ("args", args)]
              "tools/call request received";
            LogToolCallStart toolName args (start_meta requestId);
            RequestLog requestId LDebug [("tool", JStr toolName)] "Executing tool"]
        ++ probe_effects requestId toolName (session w)
        ++ [HandlerCall toolName args]
        ++ terminal_effects rt requestId toolName args duration outcome)%list
  /\ session (snd (CallTool_handler rt request w)) = session w
  /\ proc (snd (CallTool_handler rt request w)) = proc w.
Proof.
  intros Hfind. cbv zeta.
  unfold CallTool_handler, bind, try_catch, effect, ret, evaluate,
    crypto_randomUUID, now, getCalDavClient, call_handler, probe_effects,
    uninitialized_warning.
  cbn.
  rewrite Hfind. cbn.
  destruct (needsTsdav (params_name request)); cbn;
    [destruct (initialized (session w)); cbn|];
    (destruct (handler tool (session w) (request_args request))
       as [result|[| |m c]]; cbn;
     [| | |unfold caught, failure_effects; cbn;
           destruct (translate rt (RaisedValue m c) m); cbn ];
     repeat rewrite <- app_assoc; cbn; auto).
Qed.

(** A request for an unregistered tool. *)
Lemma CallTool_handler_unregistered request w :
  find_tool rt (params_name request) = None ->
  let toolName := params_name request in
  let requestId := randomUUID rt (uuid_calls w) in
  fst (CallTool_handler rt request w) =
    Thrown {| message := Some ("Unknown tool: " ++ toolName);
              code := Some (METHOD_NOT_FOUND (MCP_ERROR_CODES rt)) |}
  /\ effects (snd (CallTool_handler rt request w)) =
       (effects w
        ++ [RequestLog requestId LInfo
              [("tool", JStr toolName); ("args", request_args request)]
              "tools/call request received";
            RequestLog requestId LError [("tool", JStr toolName)] "Tool not found"])%list.
Proof.
  intros Hfind. cbv zeta.
  unfold CallTool_handler, bind, effect, throw, crypto_randomUUID. cbn.
  rewrite Hfind. cbn. rewrite <- app_assoc. auto.
Qed.

(** On an [Error] object the [catch] block computes [enhancedError]. *)
Lemma translate_of_error (error : JsError) :
  translate rt (of_error error)
    match message error with Some m => Some (JStr m) | None => None end =
  Returned (of_error (enhancedError rt error)).
Proof.
  unfold translate, enhancedError, message_includes, optional_includes,
    logical_or.
  destruct error as [[m|] c]; cbn; [|reflexivity].
  destruct (includes m "caldav"); [reflexivity|].
  destruct (includes m "CalDAV"); [reflexivity|].
  destruct (includes m "Unauthorized"); [reflexivity|].
  destruct (includes m "401"); reflexivity.
Qed.

Lemma caught_of_error (error : JsError) :
  caught rt (of_error error) = Returned (of_error (enhancedError rt error)).
Proof. unfold caught. cbn. apply translate_of_error. Qed.

(** The [catch] block throws exactly on the unreadable values. *)
Lemma caught_unreadable error :
  unreadable error = true ->
  caught rt error =
    Thrown match error with
           | RaisedUndefined => TypeError_reading_message "undefined"
           | RaisedNull => TypeError_reading_message "null"
           | RaisedValue _ _ => TypeError_includes
           end.
Proof.
  destruct error as [| |[[]|] c]; cbn; try discriminate; reflexivity.
Qed.

Lemma caught_readable error :
  unreadable error = false -> exists enhanced, caught rt error = Returned enhanced.
Proof.
  destruct error as [| |[[| | |s|items|]|] c]; cbn; try discriminate; intros _;
    unfold caught, translate, optional_includes, logical_or; cbn.
  - eexists; reflexivity.
  - destruct (includes s "caldav"); [eexists; reflexivity|].
    destruct (includes s "CalDAV"); [eexists; reflexivity|].
    destruct (includes s "Unauthorized"); [eexists; reflexivity|].
    destruct (includes s "401"); eexists; reflexivity.
  - repeat match goal with
           | |- context [existsb ?f ?l] => destruct (existsb f l)
           end; eexists; reflexivity.
  - eexists; reflexivity.
Qed.

Lemma response_of_error (error : JsError) :
  response_of rt (Thrown (of_error error)) =
  Returned (ToolErrorResponse (enhancedError rt error) (development rt)).
Proof. unfold response_of. rewrite caught_of_error. reflexivity. Qed.

Lemma failure_effects_of_error requestId toolName args duration (error : JsError) :
  failure_effects rt requestId toolName args duration (of_error error) =
  [RequestLog requestId LError
     [("tool", JStr toolName); ("error", message_json error)]
     "Tool execution error";
   LogToolCallError toolName args (enhancedError rt error)
     (end_meta requestId duration)].
Proof.
  unfold failure_effects. cbn. rewrite translate_of_error.
  destruct error as [[m|] c]; reflexivity.
Qed.

Lemma lifecycle_app l1 l2 :
  lifecycle (l1 ++ l2)%list = (lifecycle l1 ++ lifecycle l2)%list.
Proof. apply List.filter_app. Qed.

Lemma lifecycle_probe_effects requestId toolName s :
  lifecycle (probe_effects requestId toolName s) = [].
Proof.
  unfold probe_effects, uninitialized_warning.
  destruct (needsTsdav toolName), (initialized s); reflexivity.
Qed.

Lemma lifecycle_terminal_effects requestId toolName args duration outcome :
  lifecycle (terminal_effects rt requestId toolName args duration outcome) =
  terminal_events rt requestId toolName args duration outcome.
Proof.
  destruct outcome as [result|[| |m c]]; try reflexivity.
  unfold terminal_effects, terminal_events, failure_effects, caught. cbn.
  destruct (translate rt (RaisedValue m c) m); reflexivity.
Qed.

(** The lifecycle events of a request for a registered tool. *)
Lemma registered_lifecycle request w tool :
  find_tool rt (params_name request) = Some tool ->
  let toolName := params_name request in
  let args := request_args request in
  let requestId := randomUUID rt (uuid_calls w) in
  let duration := Date_now rt (S (clock_reads w)) - Date_now rt (clock_reads w) in
  exists new,
    effects (snd (CallTool_handler rt request w)) = (effects w ++ new)%list
    /\ lifecycle new =
         (LogToolCallStart toolName args (start_meta requestId)
          :: HandlerCall toolName args
          :: terminal_events rt requestId toolName args duration
               (handler tool (session w) args))%list.
Proof.
  intros Hfind. cbv zeta.
  destruct (CallTool_handler_registered request w tool Hfind)
    as (_ & Heff & _).
  eexists. split; [exact Heff|].
  rewrite !lifecycle_app, lifecycle_probe_effects, lifecycle_terminal_effects.
  reflexivity.
Qed.

Lemma needsTsdav_false toolName :
  needsTsdav toolName = false <->
  toolName = "list_calendars" \/ toolName = "list_addressbooks"
  \/ toolName = "list_todos".
Proof.
  unfold needsTsdav.
  destruct (String.eqb_spec toolName "list_calendars") as [E1|N1];
    destruct (String.eqb_spec toolName "list_addressbooks") as [E2|N2];
    destruct (String.eqb_spec toolName "list_todos") as [E3|N3];
    cbn; intuition congruence.
Qed.

(** C1, at the input where the code departs from it. When the handler of a
    registered tool throws [undefined], [null], or a value whose message is
    a number, a boolean or an object, the [catch] block itself throws: the
    request rejects, and the lifecycle logger has recorded the "start" event
    and nothing after the call of the handler, so the request has no
    terminal event. *)
Theorem unreadable_throw_leaves_no_terminal_event request w tool error :
  find_tool rt (params_name request) = Some tool ->
  handler tool (session w) (request_args request) = Thrown error ->
  unreadable error = true ->
  (forall response, fst (CallTool_handler rt request w) <> Returned response)
  /\ exists new requestId,
       effects (snd (CallTool_handler rt request w)) = (effects w ++ new)%list
       /\ lifecycle new =
            [LogToolCallStart (params_name request) (request_args request)
               (start_meta requestId);
             HandlerCall (params_name request) (request_args request)].
Proof.
  intros Hfind Hthrow Hun. split.
  - destruct (CallTool_handler_registered request w tool Hfind) as (Hres & _).
    rewrite Hres, Hthrow. unfold response_of.
    rewrite (caught_unreadable _ Hun). discriminate.
  - destruct (registered_lifecycle request w tool Hfind) as (new & Heff & Hlife).
    exists new, (randomUUID rt (uuid_calls w)). split; [exact Heff|].
    rewrite Hlife, Hthrow. unfold terminal_events.
    rewrite (caught_unreadable _ Hun). reflexivity.
Qed.

(** C2. A [tools/call] request whose tool name is not registered is rejected
    with an error carrying the code METHOD_NOT_FOUND and the message
    "Unknown tool: <name>" (for "nonexistent_tool", exactly
    "Unknown tool: nonexistent_tool"); no lifecycle "start" event is
    recorded and no handler is invoked. *)
Theorem unregistered_call_method_not_found request w :
  find_tool rt (params_name request) = None ->
  fst (CallTool_handler rt request w) =
    Thrown {| message := Some ("Unknown tool: " ++ params_name request);
              code := Some (METHOD_NOT_FOUND (MCP_ERROR_CODES rt)) |}
  /\ (params_name request = "nonexistent_tool" ->
      fst (CallTool_handler rt request w) =
        Thrown {| message := Some "Unknown tool: nonexistent_tool";
                  code := Some (METHOD_NOT_FOUND (MCP_ERROR_CODES rt)) |})
  /\ exists new,
       effects (snd (CallTool_handler rt request w)) = (effects w ++ new)%list
       /\ List.filter is_start new = []
       /\ lifecycle new = [].
Proof.
  intros Hfind.
  destruct (CallTool_handler_unregistered request w Hfind) as (Hres & Heff).
  split; [exact Hres|]. split.
  - intros Hname. rewrite Hres, Hname. reflexivity.
  - eexists. split; [exact Heff|]. split; reflexivity.
Qed.

(** C3, at the input where the code departs from it. When the handler of a
    registered tool throws [undefined], [null], or a value whose message is
    a number, a boolean or an object, the dispatcher does not resolve to an
    error response: the request rejects with the [TypeError] raised inside
    the [catch] block, and no error response is built. *)
Theorem unreadable_throw_rejects_request request w tool error :
  find_tool rt (params_name request) = Some tool ->
  handler tool (session w) (request_args request) = Thrown error ->
  unreadable error = true ->
  fst (CallTool_handler rt request w) =
    Thrown match error with
           | RaisedUndefined => TypeError_reading_message "undefined"
           | RaisedNull => TypeError_reading_message "null"
           | RaisedValue _ _ => TypeError_includes
           end.
Proof.
  intros Hfind Hthrow Hun.
  destruct (CallTool_handler_registered request w tool Hfind) as (Hres & _).
  rewrite Hres, Hthrow. unfold response_of.
  rewrite (caught_unreadable _ Hun). reflexivity.
Qed.

(** C6. For a registered tool that needs the remote session, with the
    session not initialized, the dispatcher emits the warning (request log
    and console) and then invokes the handler; the response is the one the
    handler's own outcome determines: its result when it returns, the error
    response built from the translated error when it throws an error. *)
Theorem uninitialized_session_warns_and_runs request w tool :
  find_tool rt (params_name request) = Some tool ->
  needsTsdav (params_name request) = true ->
  initialized (session w) = false ->
  (exists before after requestId,
     effects (snd (CallTool_handler rt request w)) =
       (effects w ++ before
        ++ uninitialized_warning requestId (params_name request)
        ++ [HandlerCall (params_name request) (request_args request)]
        ++ after)%list)
  /\ (forall result,
        handler tool (session w) (request_args request) = Returned result ->
        fst (CallTool_handler rt request w) = Returned (ToolResult result))
  /\ (forall error : JsError,
        handler tool (session w) (request_args request) = Thrown (of_error error) ->
        fst (CallTool_handler rt request w) =
          Returned (ToolErrorResponse (enhancedError rt error) (development rt))).
Proof.
  intros Hfind Hneeds Huninit.
  destruct (CallTool_handler_registered request w tool Hfind)
    as (Hres & Heff & _).
  split; [|split].
  - unfold probe_effects in Heff. rewrite Hneeds, Huninit in Heff.
    exists [RequestLog (randomUUID rt (uuid_calls w)) LInfo
              [("tool", JStr (params_name request));
               ("args", request_args request)]
              "tools/call request received";
            LogToolCallStart (params_name request) (request_args request)
              (start_meta (randomUUID rt (uuid_calls w)));
            RequestLog (randomUUID rt (uuid_calls w)) LDebug
              [("tool", JStr (params_name request))] "Executing tool";
            GetCalDavClient].
    eexists. exists (randomUUID rt (uuid_calls w)).
    rewrite Heff. reflexivity.
  - intros result Hret. rewrite Hres, Hret. reflexivity.
  - intros error Hthrow. rewrite Hres, Hthrow. apply response_of_error.
Qed.

(** C10. The probe of the remote session is skipped exactly for the names
    list_calendars, list_addressbooks and list_todos: for these the handler
    is invoked without any probe, and for every other registered name
    (list_events and list_contacts included) one probe precedes the
    invocation of the handler. *)
Theorem probe_exempt_exactly_three request w tool :
  find_tool rt (params_name request) = Some tool ->
  let toolName := params_name request in
  let exempt :=
    toolName = "list_calendars" \/ toolName = "list_addressbooks"
    \/ toolName = "list_todos" in
  (exists new,
     effects (snd (CallTool_handler rt request w)) = (effects w ++ new)%list
     /\ (exempt ->
         List.filter is_probe_or_call new =
           [HandlerCall toolName (request_args request)])
     /\ (~ exempt ->
         List.filter is_probe_or_call new =
           [GetCalDavClient; HandlerCall toolName (request_args request)]))
  /\ needsTsdav "list_events" = true
  /\ needsTsdav "list_contacts" = true.
Proof.
  intros Hfind toolName exempt.
  destruct (CallTool_handler_registered request w tool Hfind)
    as (_ & Heff & _).
  split; [|split; reflexivity].
  eexists. split; [exact Heff|].
  rewrite !List.filter_app. unfold probe_effects, uninitialized_warning.
  assert (Hterm : forall rid d o,
             List.filter is_probe_or_call
               (terminal_effects rt rid (params_name request)
                  (request_args request) d o) = []).
  { intros rid d [result|[| |m c]]; try reflexivity.
    unfold terminal_effects, failure_effects. cbn.
    destruct (translate rt (RaisedValue m c) m); reflexivity. }
  rewrite Hterm. cbn.
  destruct (needsTsdav (params_name request)) eqn:Hneeds.
  - split; intros Hex.
    + apply needsTsdav_false in Hex. fold toolName in Hneeds. congruence.
    + destruct (initialized (session w)); reflexivity.
  - split; intros Hex.
    + reflexivity.
    + exfalso. apply Hex. apply needsTsdav_false. exact Hneeds.
Qed.


End Dispatch.

(** ** The error translation *)

Example includes_substring :
  includes "Request failed: 401 Unauthorized" "401" = true
  /\ includes "CardDAV client not initialized" "CalDAV" = false
  /\ includes "CALDAV_SERVER_URL is missing" "caldav" = false
  /\ includes "" "caldav" = false.
Proof. repeat split. Qed.

Section Translation.

Context (rt : Runtime).

(** C4, as the code has it. For a caught error whose message is a string or
    is absent, the [catch] block reports [enhancedError], and which rule
    applies is decided by the message text alone, in a fixed order: a
    message containing "caldav" or "CalDAV" gives the templated
    configuration error with the code CALDAV_ERROR; otherwise a message
    containing "Unauthorized" or "401" gives the templated authentication
    error with the code AUTH_ERROR; otherwise the raw error is returned as
    it is, with the code it had, if any. The result agrees with a
    translation that tags the third case INTERNAL exactly when one of the
    two rules applies or the raw error already carries that code. *)
Theorem error_translation_rules (error : JsError) (INTERNAL : Z) :
  caught rt (of_error error) = Returned (of_error (enhancedError rt error))
  /\ (message_includes error "caldav" || message_includes error "CalDAV" = true ->
   enhancedError rt error = configuration_error rt)
  /\ (message_includes error "caldav" || message_includes error "CalDAV" = false ->
      message_includes error "Unauthorized" || message_includes error "401" = true ->
      enhancedError rt error = authentication_error rt)
  /\ (message_includes error "caldav" || message_includes error "CalDAV" = false ->
      message_includes error "Unauthorized" || message_includes error "401" = false ->
      enhancedError rt error = error)
  /\ (forall other,
        message other = message error ->
        enhancedError rt other = enhancedError rt error
        \/ (enhancedError rt other = other /\ enhancedError rt error = error))
  /\ (enhancedError rt error = translator_spec (MCP_ERROR_CODES rt) INTERNAL error
      <-> ((message_includes error "caldav" || message_includes error "CalDAV")
           || (message_includes error "Unauthorized" || message_includes error "401")
           = true
           \/ code error = Some INTERNAL)).
Proof.
  assert (Hsame : forall other sub,
             message other = message error ->
             message_includes other sub = message_includes error sub)
    by (intros other sub Hmsg; unfold message_includes; rewrite Hmsg; reflexivity).
  split; [apply caught_of_error|].
  unfold enhancedError, translator_spec, configuration_error,
    authentication_error, set_code, new_Error.
  split; [intros ->; reflexivity|].
  split; [intros -> ->; reflexivity|].
  split; [intros -> ->; reflexivity|].
  split.
  - intros other Hmsg. rewrite !(Hsame other _ Hmsg).
    destruct (message_includes error "caldav" || message_includes error "CalDAV");
      [left; reflexivity|].
    destruct (message_includes error "Unauthorized" || message_includes error "401");
      [left; reflexivity|right; split; reflexivity].
  - destruct (message_includes error "caldav" || message_includes error "CalDAV");
      [cbn; intuition|].
    destruct (message_includes error "Unauthorized" || message_includes error "401");
      [cbn; intuition|].
    cbn. split.
    + intros Heq. right. rewrite Heq. reflexivity.
    + intros [Hfalse|Hcode]; [discriminate|].
      destruct error as [m c]. cbn in *. rewrite Hcode. reflexivity.
Qed.

End Translation.

(** ** The [tools/list] handler *)

Section Catalogue.

Context (rt : Runtime).

Lemma ListTools_handler_result w :
  fst (ListTools_handler rt w) =
  Returned (JObj [("tools", JArr (map tool_entry (tools rt)))]).
Proof. reflexivity. Qed.

(** C9. Every [tools/list] call returns the registered catalogue in full and
    in the registry's order: as many entries as tools, the entries' names,
    descriptions and schemas being those of the tools, each entry having
    exactly the fields name, description and inputSchema; a second call
    right after the first, or after any [tools/call] request, returns the
    same catalogue. *)
Theorem list_tools_returns_catalogue (w : World) :
  exists entries,
    fst (ListTools_handler rt w) = Returned (JObj [("tools", JArr entries)])
    /\ length entries = length (tools rt)
    /\ map (property "name") entries =
         map (fun t => Some (JStr (name t))) (tools rt)
    /\ map (property "description") entries =
         map (fun t => Some (JStr (description t))) (tools rt)
    /\ map (property "inputSchema") entries =
         map (fun t => Some (inputSchema t)) (tools rt)
    /\ Forall (fun entry => keys entry = ["name"; "description"; "inputSchema"])
         entries
    /\ fst (ListTools_handler rt (snd (ListTools_handler rt w))) =
         fst (ListTools_handler rt w)
    /\ (forall request,
          fst (ListTools_handler rt (snd (CallTool_handler rt request w))) =
          fst (ListTools_handler rt w)).
Proof.
  exists (map tool_entry (tools rt)).
  split; [apply ListTools_handler_result|].
  split; [apply length_map|].
  repeat split.
  - rewrite map_map. reflexivity.
  - rewrite map_map. reflexivity.
  - rewrite map_map. reflexivity.
  - induction (tools rt) as [|t ts IH]; constructor; [reflexivity|exact IH].
Qed.

End Catalogue.

(** ** Startup *)

Section Startup.

Context (rt : Runtime).

Lemma extends_refl w : extends w w.
Proof. exists []. symmetry. apply app_nil_r. Qed.

Lemma extends_trans w1 w2 w3 : extends w1 w2 -> extends w2 w3 -> extends w1 w3.
Proof.
  intros [l1 H1] [l2 H2]. exists (l1 ++ l2)%list.
  rewrite H2, H1. symmetry. apply app_assoc.
Qed.

Lemma extends_emit e w : extends w (emit e w).
Proof. exists [e]. reflexivity. Qed.

Lemma extends_step (l0 l1 : list Effect) e :
  (exists l, l1 = (l0 ++ l)%list) -> exists l, (l1 ++ [e])%list = (l0 ++ l)%list.
Proof.
  intros [l H]. exists (l ++ [e])%list. rewrite H. symmetry. apply app_assoc.
Qed.

Ltac trace_extends :=
  unfold extends; cbn; repeat apply extends_step;
  exists []; symmetry; apply app_nil_r.

Lemma extends_In e w w' : extends w w' -> In e (effects w) -> In e (effects w').
Proof. intros [l H] Hin. rewrite H. apply in_or_app. left. exact Hin. Qed.

Lemma only_logs_ret {A} (a : A) : only_logs (ret a).
Proof. intros w. split; [apply extends_refl|split; reflexivity]. Qed.

Lemma only_logs_effect e : only_logs (effect e).
Proof. intros w. split; [apply extends_emit|split; reflexivity]. Qed.

Lemma only_logs_bind {A B} (m : M A) (k : A -> M B) :
  only_logs m -> (forall a, only_logs (k a)) -> only_logs (bind m k).
Proof.
  intros Hm Hk w. unfold bind.
  destruct (Hm w) as (He & Hs & Hp).
  destruct (m w) as [[a|e] w1]; cbn in *.
  - destruct (Hk a w1) as (He' & Hs' & Hp').
    split; [eapply extends_trans; eassumption|]. split; congruence.
  - auto.
Qed.

Lemma only_logs_forEach {A} (l : list A) (f : A -> M unit) :
  (forall a, only_logs (f a)) -> only_logs (forEach l f).
Proof.
  intros Hf. induction l as [|x l IH]; cbn.
  - apply only_logs_ret.
  - apply only_logs_bind; [apply Hf|intros _; exact IH].
Qed.

Create HintDb logs.
#[local] Hint Resolve only_logs_ret only_logs_effect only_logs_bind
  only_logs_forEach : logs.

Lemma forEach_effect_returns {A} (l : list A) (f : A -> Effect) w :
  fst (forEach l (fun a => effect (f a)) w) = Returned tt.
Proof.
  revert w. induction l as [|x l IH]; intros w; cbn; [reflexivity|].
  unfold bind, effect. cbn. apply IH.
Qed.

Lemma start_banner_spec w :
  fst (start_banner rt w) = Returned tt /\ only_logs (start_banner rt).
Proof.
  split.
  - unfold start_banner, bind, effect, ret. cbn.
    destruct (negb (hasBasicAuth rt) && negb (hasOAuth2 rt)
              && negb (String.eqb (or_default (getenv rt "AUTH_METHOD") "Basic") "Dummy"));
      reflexivity.
  - unfold start_banner.
    destruct (negb (hasBasicAuth rt) && negb (hasOAuth2 rt)
              && negb (String.eqb (or_default (getenv rt "AUTH_METHOD") "Basic") "Dummy"));
      auto 10 with logs.
Qed.

Lemma log_registered_tools_spec w :
  fst (log_registered_tools rt w) = Returned tt
  /\ only_logs (log_registered_tools rt).
Proof.
  unfold log_registered_tools.
  destruct (env_is (env rt) "LOG_LEVEL" "debug").
  - split; [apply forEach_effect_returns|auto with logs].
  - split; [reflexivity|auto with logs].
Qed.

(** [initializeTsdav] either initializes the session, or throws after
    logging the failure and leaves the session as it was. *)
Lemma initializeTsdav_cases w :
  extends w (snd (initializeTsdav rt w))
  /\ proc (snd (initializeTsdav rt w)) = proc w
  /\ ((fst (initializeTsdav rt w) = Returned tt
       /\ initialized (session (snd (initializeTsdav rt w))) = true
       /\ exists config, tsdav_initialize rt config = None)
      \/ (exists e,
            fst (initializeTsdav rt w) = Thrown e
            /\ session (snd (initializeTsdav rt w)) = session w
            /\ In (ServerLog LError [("error", message_json e)]
                     "Failed to initialize tsdav clients")
                 (effects (snd (initializeTsdav rt w))))).
Proof.
  unfold initializeTsdav, tsdavManager_initialize, try_catch, bind, effect,
    throw, ret.
  destruct (String.eqb (or_default (getenv rt "AUTH_METHOD") "Basic") "OAuth"
            || String.eqb (or_default (getenv rt "AUTH_METHOD") "Basic") "Oauth");
    cbn.
  - destruct (negb (truthy (getenv rt "GOOGLE_CLIENT_ID"))
              || negb (truthy (getenv rt "GOOGLE_CLIENT_SECRET"))
              || negb (truthy (getenv rt "GOOGLE_REFRESH_TOKEN"))); cbn.
    + split; [trace_extends|].
      split; [reflexivity|]. right. eexists. split; [reflexivity|].
      split; [reflexivity|]. apply in_or_app. right. left. reflexivity.
    + match goal with |- context [tsdav_initialize rt ?c] =>
        destruct (tsdav_initialize rt c) eqn:Hinit end; cbn.
      * split; [trace_extends|].
        split; [reflexivity|]. right. eexists. split; [reflexivity|].
        split; [reflexivity|]. apply in_or_app. right. left. reflexivity.
      * split; [trace_extends|].
        split; [reflexivity|]. left. split; [reflexivity|].
        split; [reflexivity|]. eexists. exact Hinit.
  - destruct (negb (truthy (getenv rt "CALDAV_SERVER_URL"))
              || negb (truthy (getenv rt "CALDAV_USERNAME"))
              || negb (truthy (getenv rt "CALDAV_PASSWORD"))); cbn.
    + split; [trace_extends|].
      split; [reflexivity|]. right. eexists. split; [reflexivity|].
      split; [reflexivity|]. apply in_or_app. right. left. reflexivity.
    + match goal with |- context [tsdav_initialize rt ?c] =>
        destruct (tsdav_initialize rt c) eqn:Hinit end; cbn.
      * split; [trace_extends|].
        split; [reflexivity|]. right. eexists. split; [reflexivity|].
        split; [reflexivity|]. apply in_or_app. right. left. reflexivity.
      * split; [trace_extends|].
        split; [reflexivity|]. left. split; [reflexivity|].
        split; [reflexivity|]. eexists. exact Hinit.
Qed.

Lemma start_tsdav_spec w :
  fst (start_tsdav rt w) = Returned tt
  /\ extends w (snd (start_tsdav rt w))
  /\ proc (snd (start_tsdav rt w)) = proc w
  /\ (hasBasicAuth rt || hasOAuth2 rt = false ->
      session (snd (start_tsdav rt w)) = session w
      /\ In (ConsoleLog skipping_line) (effects (snd (start_tsdav rt w))))
  /\ (forall e,
        hasBasicAuth rt || hasOAuth2 rt = true ->
        fst (initializeTsdav rt w) = Thrown e ->
        session (snd (start_tsdav rt w)) = session w
        /\ In (ServerLog LError [("error", message_json e)]
                 "Failed to initialize tsdav clients")
             (effects (snd (start_tsdav rt w)))
        /\ In (ConsoleLog init_failed_line) (effects (snd (start_tsdav rt w)))
        /\ In (ConsoleLog ("[DAV-MCP] Error: " ++ template_message e))
             (effects (snd (start_tsdav rt w)))).
Proof.
  unfold start_tsdav, try_catch.
  destruct (hasBasicAuth rt || hasOAuth2 rt).
  - destruct (initializeTsdav_cases w) as (Hext & Hproc & Hcases).
    destruct (initializeTsdav rt w) as [[[]|e] w1] eqn:E; cbn in *.
    + repeat split; try assumption; try discriminate.
    + destruct Hcases as [(Hret & _)|(e' & He' & Hsess & Hlog)]; [discriminate|].
      injection He' as <-.
      split; [reflexivity|].
      split; [eapply extends_trans; [exact Hext|trace_extends]|].
      split; [exact Hproc|].
      split; [discriminate|].
      intros e0 _ He0. injection He0 as <-.
      split; [exact Hsess|].
      split; [apply in_or_app; left; apply in_or_app; left; exact Hlog|].
      split; [apply in_or_app; left; apply in_or_app; right; left; reflexivity|].
      apply in_or_app. right. left. reflexivity.
  - cbn. split; [reflexivity|].
    split; [trace_extends|].
    split; [reflexivity|].
    split; [|discriminate].
    intros _. split; [reflexivity|]. apply in_or_app. right. left. reflexivity.
Qed.

(** The rest of [start] aborts only when the tool-call logger or the
    connection of the transport fails. *)
Lemma start_serve_cases w :
  extends w (snd (start_serve rt w))
  /\ session (snd (start_serve rt w)) = session w
  /\ match initializeToolCallLogger rt with
     | Thrown e =>
         fst (start_serve rt w) = Thrown e
         /\ proc (snd (start_serve rt w)) = proc w
     | Returned _ =>
         match connect rt with
         | Some e =>
             fst (start_serve rt w) = Thrown e
             /\ exit_code (proc (snd (start_serve rt w))) = exit_code (proc w)
         | None =>
             fst (start_serve rt w) = Returned tt
             /\ proc (snd (start_serve rt w)) =
                  set_signal_handlers true
                    (set_connected true
                       (set_global_transport true
                          (set_request_handlers true (proc w))))
         end
     end.
Proof.
  unfold start_serve, createMCPServer, performHealthCheck, bind, effect,
    modify_proc, throw, ret.
  destruct (initializeToolCallLogger rt) as [lg|e]; cbn.
  - destruct (connect rt) as [e|]; cbn.
    + split; [trace_extends|]. repeat split.
    + match goal with |- context [log_registered_tools rt ?W] =>
        destruct (log_registered_tools_spec W) as (Hret & Hlogs);
        destruct (Hlogs W) as (Hext & Hsess & Hproc)
      end.
      split; [eapply extends_trans; [|exact Hext]; trace_extends|].
      split; [rewrite Hsess; reflexivity|].
      split; [exact Hret|rewrite Hproc; reflexivity].
  - split; [apply extends_refl|]. repeat split.
Qed.

Lemma start_failed_spec e w :
  extends w (snd (start_failed e w))
  /\ session (snd (start_failed e w)) = session w
  /\ exit_code (proc (snd (start_failed e w))) = Some 1.
Proof. split; [trace_extends|]. split; reflexivity. Qed.

(** How [start] runs: the banner, the remote session, then the rest, with
    the outer [catch] around it. *)
Lemma start_unfold w :
  start rt w =
  try_catch (start_serve rt) start_failed
    (snd (start_tsdav rt (snd (start_banner rt w)))).
Proof.
  unfold start, try_catch at 1 2, bind.
  destruct (start_banner_spec w) as (Hb & _).
  destruct (start_banner rt w) as [r0 w0]. cbn in Hb. subst r0. cbn.
  destruct (start_tsdav_spec w0) as (Ht & _).
  destruct (start_tsdav rt w0) as [r1 w1]. cbn in Ht. subst r1. cbn.
  reflexivity.
Qed.

(** C7. A failed initialization of the remote session, or the absence of
    credentials, is logged and does not abort startup: unless the tool-call
    logger or the connection of the transport fails, [start] ends in the
    connected state with the request handlers registered and the catalogue
    served, and the remote session is left as it was (uninitialized). When
    [start] exits, the code is 1 and the fault is one of those two, not the
    initialization of the remote session. Afterwards a failing tool handler
    surfaces as the error response of its own call. *)
Theorem startup_survives_session_failure (w : World) :
  exit_code (proc w) = None ->
  closing (proc w) = 0%nat ->
  (forall lg,
     initializeToolCallLogger rt = Returned lg ->
     connect rt = None ->
     fst (start rt w) = Returned tt
     /\ phase (snd (start rt w)) = Connected
     /\ request_handlers (proc (snd (start rt w))) = true
     /\ fst (ListTools_handler rt (snd (start rt w))) = Returned (catalogue rt))
  /\ (hasBasicAuth rt || hasOAuth2 rt = false ->
      session (snd (start rt w)) = session w
      /\ In (ConsoleLog skipping_line) (effects (snd (start rt w))))
  /\ (forall e,
        hasBasicAuth rt || hasOAuth2 rt = true ->
        fst (initializeTsdav rt (snd (start_banner rt w))) = Thrown e ->
        session (snd (start rt w)) = session w
        /\ In (ServerLog LError [("error", message_json e)]
                 "Failed to initialize tsdav clients")
             (effects (snd (start rt w)))
        /\ In (ConsoleLog init_failed_line) (effects (snd (start rt w)))
        /\ In (ConsoleLog ("[DAV-MCP] Error: " ++ template_message e))
             (effects (snd (start rt w))))
  /\ (forall c,
        exit_code (proc (snd (start rt w))) = Some c ->
        c = 1
        /\ exists e, initializeToolCallLogger rt = Thrown e \/ connect rt = Some e)
  /\ (forall request tool (error : JsError),
        find_tool rt (params_name request) = Some tool ->
        handler tool (session (snd (start rt w))) (request_args request)
        = Thrown (of_error error) ->
        fst (CallTool_handler rt request (snd (start rt w))) =
          Returned (ToolErrorResponse (enhancedError rt error) (development rt))).
Proof.
  intros Hrun Hclosing. rewrite start_unfold.
  destruct (start_banner_spec w) as (_ & Hbanner).
  destruct (Hbanner w) as (Hext0 & Hsess0 & Hproc0).
  set (w0 := snd (start_banner rt w)) in *.
  destruct (start_tsdav_spec w0) as (_ & Hext1 & Hproc1 & Hskip & Hfail).
  set (w1 := snd (start_tsdav rt w0)) in *.
  destruct (start_serve_cases w1) as (Hext2 & Hsess2 & Hserve).
  assert (Hafter : extends w1 (snd (try_catch (start_serve rt) start_failed w1))
                   /\ session (snd (try_catch (start_serve rt) start_failed w1))
                      = session w1).
  { unfold try_catch.
    destruct (start_serve rt w1) as [[[]|e] w2]; cbn in *; [auto|].
    destruct (start_failed_spec e w2) as (He & Hs & _).
    split; [eapply extends_trans; eassumption|congruence]. }
  destruct Hafter as (Hext3 & Hsess3).
  split; [|split; [|split; [|split]]].
  - intros lg Hlg Hconn. rewrite Hlg, Hconn in Hserve.
    destruct Hserve as (Hret & Hp). unfold try_catch.
    destruct (start_serve rt w1) as [r2 w2]. cbn in *. subst r2. cbn.
    split; [reflexivity|].
    unfold phase. rewrite Hp, Hproc1, Hproc0. cbn. rewrite Hrun, Hclosing.
    repeat split.
  - intros Hnone. destruct (Hskip Hnone) as (Hs & Hin).
    split; [congruence|]. eapply extends_In; eassumption.
  - intros e Hsome Hthrown. destruct (Hfail e Hsome Hthrown) as (Hs & H1 & H2 & H3).
    split; [congruence|].
    repeat split; eapply extends_In; eassumption.
  - intros c Hexit. unfold try_catch in Hexit.
    destruct (initializeToolCallLogger rt) as [lg|e].
    + destruct (connect rt) as [e|].
      * destruct Hserve as (Hthrow & _).
        destruct (start_serve rt w1) as [r2 w2]. cbn in *. subst r2.
        cbn in Hexit.
        destruct (start_failed_spec e w2) as (_ & _ & Hcode).
        split; [congruence|]. exists e. right. reflexivity.
      * destruct Hserve as (Hret & Hp).
        destruct (start_serve rt w1) as [r2 w2]. cbn in *. subst r2. cbn in Hexit.
        rewrite Hp, Hproc1, Hproc0 in Hexit. cbn in Hexit. congruence.
    + destruct Hserve as (Hthrow & _).
      destruct (start_serve rt w1) as [r2 w2]. cbn in *. subst r2.
      cbn in Hexit.
      destruct (start_failed_spec e w2) as (_ & _ & Hcode).
      split; [congruence|]. exists e. left. reflexivity.
  - intros request tool error Hfind Hthrow.
    match goal with |- context [CallTool_handler rt request ?W] =>
      destruct (CallTool_handler_registered rt request W tool Hfind) as (Hres & _)
    end.
    rewrite Hres, Hthrow. apply response_of_error.
Qed.

End Startup.

(** ** Shutdown *)

Section Shutdown.

Lemma report_trigger_spec t w :
  fst (report_trigger t w) = Returned tt
  /\ proc (snd (report_trigger t w)) = proc w
  /\ close_calls (effects (snd (report_trigger t w))) = close_calls (effects w).
Proof.
  unfold close_calls.
  destruct t; cbn; rewrite ?List.filter_app; cbn; rewrite ?app_nil_r; auto.
Qed.

(** With a transport, a run of [gracefulShutdown] that nothing interrupts is
    the suspended run followed by its resumption. *)
Lemma gracefulShutdown_split signal outcome w :
  global_transport (proc w) = true ->
  snd (gracefulShutdown signal outcome w) =
  snd (gracefulShutdown_resume outcome (snd (gracefulShutdown_begin signal w))).
Proof.
  intros Htransport.
  unfold gracefulShutdown, gracefulShutdown_begin, gracefulShutdown_resume,
    received_shutdown_signal, transport_close, shutdown_completed,
    shutdown_failed, clear_cleanupInterval, process_exit, try_catch, bind,
    effect, modify_proc, throw, ret.
  cbn. rewrite Htransport. cbn.
  destruct outcome as [e|]; cbn; [reflexivity|].
  destruct (global_cleanupInterval (proc w)); reflexivity.
Qed.

(** Without a transport the run completes at once, with code 0. *)
Lemma gracefulShutdown_no_transport signal outcome w :
  global_transport (proc w) = false ->
  gracefulShutdown_begin signal w = gracefulShutdown signal outcome w
  /\ exit_code (proc (snd (gracefulShutdown signal outcome w))) = Some 0.
Proof.
  intros Htransport.
  unfold gracefulShutdown, gracefulShutdown_begin, received_shutdown_signal,
    shutdown_completed, shutdown_failed, clear_cleanupInterval, process_exit,
    try_catch, bind, effect, modify_proc, ret.
  cbn. rewrite Htransport. cbn.
  destruct (global_cleanupInterval (proc w)); cbn; split; reflexivity.
Qed.

Lemma step_terminated w ev c :
  exit_code (proc w) = Some c -> step w ev = w.
Proof. intros H. unfold step. rewrite H. reflexivity. Qed.

(** A trigger that finds a transport calls [close()] once more and leaves
    one more run pending, whatever is already pending. *)
Lemma step_trigger_with_transport w t :
  exit_code (proc w) = None ->
  global_transport (proc w) = true ->
  let w1 := step w (Triggered t) in
  close_calls (effects w1) = S (close_calls (effects w))
  /\ closing (proc w1) = S (closing (proc w))
  /\ exit_code (proc w1) = None
  /\ global_transport (proc w1) = true
  /\ global_cleanupInterval (proc w1) = global_cleanupInterval (proc w)
  /\ extends w w1.
Proof.
  intros Hrun Htransport. cbv zeta. unfold step. rewrite Hrun.
  unfold on_trigger, bind.
  destruct (report_trigger_spec t w) as (Hret & Hproc & Hcalls).
  assert (Hext : extends w (snd (report_trigger t w)))
    by (destruct t; cbn; [apply extends_refl|apply extends_refl| |];
        unfold extends; cbn; repeat apply extends_step; exists [];
        symmetry; apply app_nil_r).
  destruct (report_trigger t w) as [r w0]. cbn in *. subst r.
  unfold gracefulShutdown_begin, received_shutdown_signal, bind, effect,
    modify_proc. cbn.
  rewrite Hproc, Htransport. cbn.
  unfold close_calls in *. rewrite !List.filter_app, !length_app. cbn.
  rewrite Hcalls, Hrun.
  repeat split; try lia; try assumption.
  eapply extends_trans; [exact Hext|].
  unfold extends; cbn; repeat apply extends_step; exists [];
    symmetry; apply app_nil_r.
Qed.

(** The resumption of a pending run ends the process: code 0 after a clean
    release, with the periodic task cancelled, code 1 when the release
    raised. *)
Lemma step_close_settled w outcome n :
  exit_code (proc w) = None ->
  closing (proc w) = S n ->
  let w2 := step w (CloseSettled outcome) in
  exit_code (proc w2) = Some (match outcome with None => 0 | Some _ => 1 end)
  /\ In (ProcessExit (match outcome with None => 0 | Some _ => 1 end))
       (effects w2)
  /\ (outcome = None ->
      forall timer,
        global_cleanupInterval (proc w) = Some timer ->
        In (ClearInterval timer) (effects w2)).
Proof.
  intros Hrun Hclosing. cbv zeta. unfold step. rewrite Hrun, Hclosing.
  unfold gracefulShutdown_resume, shutdown_completed, shutdown_failed,
    clear_cleanupInterval, process_exit, try_catch, bind, effect, modify_proc,
    throw, ret.
  cbn. destruct outcome as [e|]; cbn.
  - split; [reflexivity|]. split; [|discriminate].
    apply in_or_app. right. left. reflexivity.
  - destruct (global_cleanupInterval (proc w)) as [timer|]; cbn.
    + split; [reflexivity|]. split.
      * apply in_or_app. right. left. reflexivity.
      * intros _ timer' [= <-].
        apply in_or_app. left. apply in_or_app. left.
        apply in_or_app. right. left. reflexivity.
    + split; [reflexivity|]. split; [|discriminate].
      apply in_or_app. right. left. reflexivity.
Qed.

(** C8, as the code has it. [gracefulShutdown] has no guard against
    re-entry. From the connected state a trigger calls [close()] on the
    transport and leaves the process shutting down; a further trigger that
    arrives before [close()] has settled runs the path again (one more call
    of [close()], one more pending run). When [close()] settles the path
    ends the process, with code 0 after a clean release (the periodic task,
    if any, having been cancelled) and with code 1 when the release raised;
    once the process has exited no event has any effect. *)
Theorem shutdown_path (w : World) (t : Trigger) (outcome : option JsError) :
  exit_code (proc w) = None ->
  closing (proc w) = 0%nat ->
  global_transport (proc w) = true ->
  let w1 := run w [Triggered t] in
  let w2 := run w [Triggered t; CloseSettled outcome] in
  phase w1 = ShuttingDown
  /\ close_calls (effects w1) = S (close_calls (effects w))
  /\ (forall again,
        close_calls (effects (run w [Triggered t; Triggered again])) =
          S (close_calls (effects w1))
        /\ closing (proc (run w [Triggered t; Triggered again])) = 2%nat)
  /\ w2 = snd (gracefulShutdown (signal_name t) outcome (snd (report_trigger t w)))
  /\ exit_code (proc w2) = Some (match outcome with None => 0 | Some _ => 1 end)
  /\ (outcome = None ->
      forall timer,
        global_cleanupInterval (proc w) = Some timer ->
        In (ClearInterval timer) (effects w2))
  /\ (forall ev, step w2 ev = w2).
Proof.
  intros Hrun Hclosing Htransport. cbv zeta. unfold run. cbn [fold_left].
  destruct (step_trigger_with_transport w t Hrun Htransport)
    as (Hcalls & Hpending & Hrun1 & Htransport1 & Hinterval & _).
  rewrite Hclosing in Hpending.
  destruct (step_close_settled (step w (Triggered t)) outcome 0 Hrun1 Hpending)
    as (Hcode & _ & Hclear).
  split; [unfold phase; rewrite Hrun1, Hpending; reflexivity|].
  split; [exact Hcalls|].
  split.
  { intros again.
    destruct (step_trigger_with_transport (step w (Triggered t)) again
                Hrun1 Htransport1) as (Hc & Hp & _).
    split; [exact Hc|]. rewrite Hp, Hpending. reflexivity. }
  split.
  { unfold step at 1. rewrite Hrun1, Hpending.
    unfold step. rewrite Hrun. unfold on_trigger, bind.
    destruct (report_trigger_spec t w) as (Hret & Hproc & _).
    destruct (report_trigger t w) as [r w0]. cbn in *. subst r.
    symmetry. apply gracefulShutdown_split. congruence. }
  split; [exact Hcode|].
  split.
  { intros Hclean timer Htimer. apply (Hclear Hclean). congruence. }
  intros ev. eapply step_terminated. exact Hcode.
Qed.

End Shutdown.

(** ** The properties at the sample data *)

Lemma unreadable_throw_leaves_no_terminal_event_delete_event :
  (forall response,
     fst (CallTool_handler faulty_runtime (call "delete_event") initial_world)
     <> Returned response)
  /\ exists new requestId,
       effects (snd (CallTool_handler faulty_runtime (call "delete_event")
                       initial_world)) = (effects initial_world ++ new)%list
       /\ lifecycle new =
            [LogToolCallStart "delete_event" empty_object (start_meta requestId);
             HandlerCall "delete_event" empty_object].
Proof.
  exact (unreadable_throw_leaves_no_terminal_event faulty_runtime
           (call "delete_event") initial_world delete_event_tool RaisedUndefined
           eq_refl eq_refl eq_refl).
Defined.

Lemma unregistered_call_nonexistent_tool :
  fst (CallTool_handler offline_runtime (call "nonexistent_tool") initial_world) =
    Thrown {| message := Some "Unknown tool: nonexistent_tool";
              code := Some (-32601) |}.
Proof.
  exact (proj1 (unregistered_call_method_not_found offline_runtime (call "nonexistent_tool")
                  initial_world eq_refl)).
Defined.

Lemma unreadable_throw_rejects_request_update_event :
  fst (CallTool_handler faulty_runtime (call "update_event") initial_world) =
    Thrown TypeError_includes.
Proof.
  exact (unreadable_throw_rejects_request faulty_runtime (call "update_event")
           initial_world update_event_tool (RaisedValue (Some (JNum 404)) None)
           eq_refl eq_refl eq_refl).
Defined.

Lemma uninitialized_session_warns_and_runs_create_event :
  fst (CallTool_handler offline_runtime (call "create_event") initial_world) =
    Returned (ToolErrorResponse (configuration_error offline_runtime) false).
Proof.
  exact (proj2 (proj2 (uninitialized_session_warns_and_runs offline_runtime
                         (call "create_event") initial_world create_event_tool
                         eq_refl eq_refl eq_refl))
           (new_Error "CalDAV client not initialized. Call initialize() first.")
           eq_refl).
Defined.

Lemma probe_exempt_list_calendars :
  exists new,
    effects (snd (CallTool_handler offline_runtime (call "list_calendars")
                    initial_world)) = (effects initial_world ++ new)%list
    /\ List.filter is_probe_or_call new =
         [HandlerCall "list_calendars" empty_object].
Proof.
  destruct (proj1 (probe_exempt_exactly_three offline_runtime
                     (call "list_calendars") initial_world list_calendars_tool
                     eq_refl))
    as (new & Heffects & Hexempt & _).
  exists new. split; [exact Heffects|].
  exact (Hexempt (or_introl eq_refl)).
Defined.



(** The claim C4 fails at an error that matches neither rule: it is
    returned as it is, with no code, so no value of INTERNAL tags it. *)
Lemma passthrough_carries_no_internal_tag :
  enhancedError offline_runtime (new_Error "Validation failed: summary is required") =
    new_Error "Validation failed: summary is required"
  /\ ~ (exists INTERNAL,
         code (enhancedError offline_runtime (new_Error "Validation failed: summary is required"))
         = Some INTERNAL)
  /\ ~ (exists INTERNAL,
         enhancedError offline_runtime (new_Error "Validation failed: summary is required")
         = translator_spec sample_codes INTERNAL
             (new_Error "Validation failed: summary is required")).
Proof.
  split; [reflexivity|]. split.
  - intros [INTERNAL H]. vm_compute in H. discriminate H.
  - intros [INTERNAL H]. vm_compute in H. discriminate H.
Qed.

Lemma startup_with_rejected_credentials :
  phase (snd (start (rejecting_runtime basic_env) initial_world)) = Connected
  /\ initialized (session (snd (start (rejecting_runtime basic_env) initial_world)))
     = false.
Proof.
  destruct (startup_survives_session_failure (rejecting_runtime basic_env)
              initial_world eq_refl eq_refl)
    as (Hsoft & _ & Hfail & _ & _).
  split.
  - exact (proj1 (proj2 (Hsoft _ eq_refl eq_refl))).
  - destruct (Hfail (new_Error "401 Unauthorized")
                ltac:(vm_compute; reflexivity) ltac:(vm_compute; reflexivity))
      as (Hsession & _).
    rewrite Hsession. reflexivity.
Defined.

(** The claim C8 fails in the shutting-down state: a second signal changes
    the state, calling [close()] on the transport a second time. *)
Lemma second_trigger_reenters_shutdown :
  phase shutting_down_world = ShuttingDown
  /\ close_calls (effects shutting_down_world) = 1%nat
  /\ close_calls (effects (run shutting_down_world [Triggered SIGINT])) = 2%nat
  /\ run shutting_down_world [Triggered SIGINT] <> shutting_down_world.
Proof.
  split; [vm_compute; reflexivity|].
  split; [vm_compute; reflexivity|].
  split; [vm_compute; reflexivity|].
  intros H. apply (f_equal (fun w => close_calls (effects w))) in H.
  vm_compute in H. discriminate H.
Qed.

Lemma shutdown_path_from_connected :
  exit_code (proc (run connected_world [Triggered SIGTERM; CloseSettled None]))
  = Some 0.
Proof.
  destruct (shutdown_path connected_world SIGTERM None
              ltac:(vm_compute; reflexivity) ltac:(vm_compute; reflexivity)
              ltac:(vm_compute; reflexivity))
    as (_ & _ & _ & _ & Hcode & _).
  exact Hcode.
Defined.

(** * Further properties of the request handlers *)

Section Registry.

Context (rt : Runtime).

Lemma find_tool_None toolName :
  find_tool rt toolName = None <-> ~ In toolName (map name (tools rt)).
Proof.
  unfold find_tool. induction (tools rt) as [|t ts IH]; cbn.
  - split; [intros _ []|reflexivity].
  - destruct (String.eqb_spec (name t) toolName) as [Heq|Hne].
    + split; [discriminate|]. intros Hnot. exfalso. apply Hnot. left. exact Heq.
    + rewrite IH. split.
      * intros Hnot [Heq|Hin]; [exact (Hne Heq)|exact (Hnot Hin)].
      * intros Hnot Hin. apply Hnot. right. exact Hin.
Qed.

Lemma find_tool_first toolName before tool after :
  tools rt = (before ++ tool :: after)%list ->
  name tool = toolName ->
  ~ In toolName (map name before) ->
  find_tool rt toolName = Some tool.
Proof.
  unfold find_tool. intros -> Hname.
  induction before as [|t ts IH]; cbn; intros Hnot.
  - rewrite Hname, String.eqb_refl. reflexivity.
  - destruct (String.eqb_spec (name t) toolName) as [Heq|Hne].
    + exfalso. apply Hnot. left. exact Heq.
    + apply IH. intros Hin. apply Hnot. right. exact Hin.
Qed.

Lemma CallTool_handler_counters request w :
  uuid_calls (snd (CallTool_handler rt request w)) = S (uuid_calls w)
  /\ clock_reads (snd (CallTool_handler rt request w)) =
       match find_tool rt (params_name request) with
       | Some _ => S (S (clock_reads w))
       | None => clock_reads w
       end.
Proof.
  unfold CallTool_handler, bind, try_catch, effect, ret, throw, evaluate,
    crypto_randomUUID, now, getCalDavClient, call_handler.
  cbn. destruct (find_tool rt (params_name request)) as [tool|]; cbn.
  - destruct (needsTsdav (params_name request)); cbn;
      [destruct (initialized (session w)); cbn|];
      (destruct (handler tool (session w) (request_args request))
         as [result|[| |m c]]; cbn;
       [| | |destruct (translate rt (RaisedValue m c) m); cbn];
       split; reflexivity).
  - split; reflexivity.
Qed.

Lemma unreadable_of_error (error : JsError) : unreadable (of_error error) = false.
Proof. destruct error as [[m|] c]; reflexivity. Qed.

(** X1. A [tools/call] request is rejected (the handler throws) exactly
    when no registered tool has the requested name, or the handler of the
    tool found throws a value the [catch] block cannot read: [undefined],
    [null], or a value whose message is a number, a boolean or an object.
    Every other request resolves to a response. *)
Theorem call_rejected_iff_unregistered_or_unreadable
    (request : CallToolRequest) (w : World) :
  (exists e, fst (CallTool_handler rt request w) = Thrown e)
  <-> (~ In (params_name request) (map name (tools rt))
       \/ exists tool error,
            find_tool rt (params_name request) = Some tool
            /\ handler tool (session w) (request_args request) = Thrown error
            /\ unreadable error = true).
Proof.
  rewrite <- find_tool_None.
  destruct (find_tool rt (params_name request)) as [tool|] eqn:Hfind.
  - destruct (CallTool_handler_registered rt request w tool Hfind) as (Hres & _).
    rewrite Hres. unfold response_of. split.
    + intros [e He]. right. exists tool.
      destruct (handler tool (session w) (request_args request))
        as [result|error]; [discriminate He|].
      exists error. split; [reflexivity|]. split; [reflexivity|].
      destruct (unreadable error) eqn:Hun; [reflexivity|].
      destruct (caught_readable rt error Hun) as [enhanced Hc].
      rewrite Hc in He. discriminate He.
    + intros [Hnone|(tool' & error & Htool & Hthrow & Hun)]; [discriminate Hnone|].
      injection Htool as <-. rewrite Hthrow, (caught_unreadable rt _ Hun).
      eexists. reflexivity.
  - destruct (CallTool_handler_unregistered rt request w Hfind) as (Hres & _).
    rewrite Hres. split; [left; reflexivity|]. intros _. eexists. reflexivity.
Qed.

(** X2. When several registered tools share a name, the earliest one in the
    registry answers: the response is the one its handler's outcome
    determines (its result when it returns, the error response built from
    the translated error when it throws an error, and in every case what the
    [catch] block makes of the thrown value), and it is its handler that is
    recorded as called. *)
Theorem earliest_registered_tool_answers
    (request : CallToolRequest) (w : World) before tool after :
  tools rt = (before ++ tool :: after)%list ->
  name tool = params_name request ->
  ~ In (params_name request) (map name before) ->
  (forall result,
     handler tool (session w) (request_args request) = Returned result ->
     fst (CallTool_handler rt request w) = Returned (ToolResult result))
  /\ (forall error : JsError,
        handler tool (session w) (request_args request) = Thrown (of_error error) ->
        fst (CallTool_handler rt request w) =
          Returned (ToolErrorResponse (enhancedError rt error) (development rt)))
  /\ (forall error,
        handler tool (session w) (request_args request) = Thrown error ->
        fst (CallTool_handler rt request w) =
          match caught rt error with
          | Returned enhanced =>
              Returned (ToolErrorResponse enhanced (development rt))
          | Thrown e => Thrown e
          end).
Proof.
  intros Htools Hname Hfirst.
  pose proof (find_tool_first _ before tool after Htools Hname Hfirst) as Hfind.
  destruct (CallTool_handler_registered rt request w tool Hfind) as (Hres & _).
  rewrite Hres. split; [|split].
  - intros result ->. reflexivity.
  - intros error ->. apply response_of_error.
  - intros error ->. reflexivity.
Qed.

Ltac tag_each :=
  repeat first
    [ apply List.Forall_nil
    | apply List.Forall_cons; [first [left; reflexivity | right; reflexivity]|] ].

(** X3. One request identifier per request: a [tools/call] request draws
    exactly one UUID, and every request-log record and lifecycle event it
    emits is tagged with that UUID; the next request draws the next one. *)
Theorem request_effects_share_request_id (request : CallToolRequest) (w : World) :
  exists new,
    effects (snd (CallTool_handler rt request w)) = (effects w ++ new)%list
    /\ Forall (fun e => effect_requestId e = None
                        \/ effect_requestId e = Some (randomUUID rt (uuid_calls w)))
         new
    /\ (exists e, In e new
                  /\ effect_requestId e = Some (randomUUID rt (uuid_calls w)))
    /\ uuid_calls (snd (CallTool_handler rt request w)) = S (uuid_calls w).
Proof.
  destruct (CallTool_handler_counters request w) as (Huuid & _).
  destruct (find_tool rt (params_name request)) as [tool|] eqn:Hfind.
  - destruct (CallTool_handler_registered rt request w tool Hfind)
      as (_ & Heff & _).
    eexists. split; [exact Heff|]. split; [|split; [|exact Huuid]].
    + rewrite !Forall_app. split; [|split; [|split]].
      * tag_each.
      * unfold probe_effects, uninitialized_warning.
        destruct (needsTsdav (params_name request));
          [destruct (initialized (session w))|];
          tag_each.
      * tag_each.
      * destruct (handler tool (session w) (request_args request))
          as [result|[| |m c]]; try tag_each.
        unfold terminal_effects, failure_effects. cbn.
        destruct (translate rt (RaisedValue m c) m); tag_each.
    + eexists. split; [left; reflexivity|reflexivity].
  - destruct (CallTool_handler_unregistered rt request w Hfind) as (_ & Heff).
    eexists. split; [exact Heff|]. split; [|split; [|exact Huuid]].
    + tag_each.
    + eexists. split; [left; reflexivity|reflexivity].
Qed.

(** X4. The stack is requested from [createToolErrorResponse] exactly when
    NODE_ENV is the string "development": any other value, or none, gives an
    error response without it. This holds for every thrown value the
    [catch] block can read, errors included. *)
Theorem stack_included_only_in_development
    (request : CallToolRequest) (w : World) tool error :
  find_tool rt (params_name request) = Some tool ->
  handler tool (session w) (request_args request) = Thrown error ->
  unreadable error = false ->
  exists response,
    fst (CallTool_handler rt request w) = Returned response
    /\ (response_includes_stack response = true
        <-> env rt !! "NODE_ENV" = Some "development").
Proof.
  intros Hfind Hthrow Hun.
  destruct (CallTool_handler_registered rt request w tool Hfind) as (Hres & _).
  destruct (caught_readable rt error Hun) as [enhanced Hcaught].
  rewrite Hres, Hthrow. unfold response_of. rewrite Hcaught.
  eexists. split; [reflexivity|].
  cbn. unfold development, env_is.
  destruct (env rt !! "NODE_ENV") as [v|]; [|split; discriminate].
  destruct (String.eqb_spec v "development") as [->|Hne].
  - split; reflexivity.
  - split; [discriminate|]. intros [= Heq]. contradiction.
Qed.

(** X5. The duration reported by the terminal lifecycle event is the
    difference of the two clock readings taken around the call: the clock is
    read exactly twice for a registered tool and not at all otherwise, and
    with a clock that does not run backwards the duration is not negative.
    The terminal event is there whenever the request resolves; a request
    that rejects inside the [catch] block has none. *)
Theorem terminal_duration_is_elapsed_time
    (request : CallToolRequest) (w : World) tool :
  find_tool rt (params_name request) = Some tool ->
  exists new,
    effects (snd (CallTool_handler rt request w)) = (effects w ++ new)%list
    /\ (forall response,
          fst (CallTool_handler rt request w) = Returned response ->
          map terminal_duration (List.filter is_lifecycle new) =
            [None; None;
             Some (Date_now rt (S (clock_reads w)) - Date_now rt (clock_reads w))])
    /\ (forall e,
          fst (CallTool_handler rt request w) = Thrown e ->
          map terminal_duration (List.filter is_lifecycle new) = [None; None])
    /\ clock_reads (snd (CallTool_handler rt request w)) = S (S (clock_reads w))
    /\ ((forall i j, (i <= j)%nat -> Date_now rt i <= Date_now rt j) ->
        0 <= Date_now rt (S (clock_reads w)) - Date_now rt (clock_reads w)).
Proof.
  intros Hfind.
  destruct (CallTool_handler_registered rt request w tool Hfind)
    as (Hres & Heff & _).
  destruct (CallTool_handler_counters request w) as (_ & Hclock).
  rewrite Hfind in Hclock.
  assert (Hlife :
    map terminal_duration
      (lifecycle
         ([RequestLog (randomUUID rt (uuid_calls w)) LInfo
             [("tool", JStr (params_name request));
              ("args", request_args request)]
             "tools/call request received";
           LogToolCallStart (params_name request) (request_args request)
             (start_meta (randomUUID rt (uuid_calls w)));
           RequestLog (randomUUID rt (uuid_calls w)) LDebug
             [("tool", JStr (params_name request))] "Executing tool"]
          ++ probe_effects (randomUUID rt (uuid_calls w))
               (params_name request) (session w)
          ++ [HandlerCall (params_name request) (request_args request)]
          ++ terminal_effects rt (randomUUID rt (uuid_calls w))
               (params_name request) (request_args request)
               (Date_now rt (S (clock_reads w)) - Date_now rt (clock_reads w))
               (handler tool (session w) (request_args request)))%list) =
    (None :: None ::
     map terminal_duration
       (terminal_events rt (randomUUID rt (uuid_calls w))
          (params_name request) (request_args request)
          (Date_now rt (S (clock_reads w)) - Date_now rt (clock_reads w))
          (handler tool (session w) (request_args request))))%list).
  { rewrite !lifecycle_app, lifecycle_probe_effects, lifecycle_terminal_effects.
    reflexivity. }
  eexists. split; [exact Heff|].
  split; [|split; [|split; [exact Hclock|]]].
  - intros response Hresolved. rewrite Hres in Hresolved.
    unfold lifecycle in Hlife. rewrite Hlife.
    unfold response_of in Hresolved. unfold terminal_events.
    destruct (handler tool (session w) (request_args request))
      as [result|error]; [reflexivity|].
    destruct (caught rt error); [reflexivity|discriminate Hresolved].
  - intros e Hrejected. rewrite Hres in Hrejected.
    unfold lifecycle in Hlife. rewrite Hlife.
    unfold response_of in Hrejected. unfold terminal_events.
    destruct (handler tool (session w) (request_args request))
      as [result|error]; [discriminate Hrejected|].
    destruct (caught rt error); [discriminate Hrejected|reflexivity].
  - intros Hmono. specialize (Hmono (clock_reads w) (S (clock_reads w))). lia.
Qed.

(** X22. A [tools/call] request for a registered tool whose handler
    returns, or throws a value the [catch] block can read, records exactly
    one "start" event before the call of the handler and exactly one
    terminal event after it: "success" with the handler's result, or
    "failure" with the translated error. The events and the call carry the
    same tool name and arguments, and the lifecycle logger records nothing
    else for the request. *)
Theorem readable_outcome_lifecycle (request : CallToolRequest) (w : World) tool :
  find_tool rt (params_name request) = Some tool ->
  (forall error,
     handler tool (session w) (request_args request) = Thrown error ->
     unreadable error = false) ->
  exists new requestId duration terminal,
    effects (snd (CallTool_handler rt request w)) = (effects w ++ new)%list
    /\ lifecycle new =
         [LogToolCallStart (params_name request) (request_args request)
            (start_meta requestId);
          HandlerCall (params_name request) (request_args request);
          terminal]
    /\ (forall result,
          handler tool (session w) (request_args request) = Returned result ->
          terminal =
            LogToolCallSuccess (params_name request) (request_args request)
              result (end_meta requestId duration))
    /\ (forall error : JsError,
          handler tool (session w) (request_args request) = Thrown (of_error error) ->
          terminal =
            LogToolCallError (params_name request) (request_args request)
              (enhancedError rt error) (end_meta requestId duration))
    /\ (forall error,
          handler tool (session w) (request_args request) = Thrown error ->
          exists enhanced,
            caught rt error = Returned enhanced
            /\ terminal =
                 LogToolCallError (params_name request) (request_args request)
                   enhanced (end_meta requestId duration)).
Proof.
  intros Hfind Hreadable.
  destruct (registered_lifecycle rt request w tool Hfind) as (new & Heff & Hlife).
  exists new, (randomUUID rt (uuid_calls w)),
    (Date_now rt (S (clock_reads w)) - Date_now rt (clock_reads w)).
  unfold terminal_events in Hlife.
  destruct (handler tool (session w) (request_args request))
    as [result|error] eqn:Hout.
  - eexists. split; [exact Heff|]. split; [exact Hlife|].
    split; [|split].
    + intros result' [= <-]. reflexivity.
    + intros error [=].
    + intros error [=].
  - destruct (caught_readable rt error (Hreadable error eq_refl))
      as [enhanced Hcaught].
    rewrite Hcaught in Hlife.
    eexists. split; [exact Heff|]. split; [exact Hlife|].
    split; [|split].
    + intros result [=].
    + intros error' [= ->]. rewrite caught_of_error in Hcaught.
      injection Hcaught as <-. reflexivity.
    + intros error' [= <-]. exists enhanced. split; [exact Hcaught|reflexivity].
Qed.

End Registry.

(** * Further properties of the error translation *)

(** X6. Translating twice: an error that either rule rewrites ends as the
    configuration error, because both templated messages contain "CalDAV";
    an error that passes through stays itself. A third translation changes
    nothing more. *)
Theorem translation_twice (rt : Runtime) (error : JsError) :
  enhancedError rt (enhancedError rt error) =
    (if translated error then configuration_error rt else error)
  /\ enhancedError rt (enhancedError rt (enhancedError rt error)) =
       enhancedError rt (enhancedError rt error).
Proof.
  assert (Hconfig : enhancedError rt (configuration_error rt) = configuration_error rt)
    by reflexivity.
  assert (Hauth : enhancedError rt (authentication_error rt) = configuration_error rt)
    by reflexivity.
  unfold translated.
  destruct (message_includes error "caldav" || message_includes error "CalDAV")
    eqn:Hremote.
  - assert (Hfirst : enhancedError rt error = configuration_error rt)
      by (unfold enhancedError; rewrite Hremote; reflexivity).
    rewrite Hfirst, !Hconfig. split; reflexivity.
  - destruct (message_includes error "Unauthorized" || message_includes error "401")
      eqn:Hunauthorized.
    + assert (Hfirst : enhancedError rt error = authentication_error rt)
        by (unfold enhancedError; rewrite Hremote, Hunauthorized; reflexivity).
      rewrite Hfirst, Hauth, Hconfig. split; reflexivity.
    + assert (Hfirst : enhancedError rt error = error)
        by (unfold enhancedError; rewrite Hremote, Hunauthorized; reflexivity).
      rewrite !Hfirst. split; reflexivity.
Qed.

(** * Further properties of the startup *)

Section Session.

Context (rt : Runtime).

Ltac count_trace :=
  unfold count_initialize; cbn;
  rewrite ?List.filter_app, ?length_app; cbn; lia.

Lemma credentials_check (a b c : bool) :
  negb a || negb b || negb c = negb (a && b && c).
Proof. destruct a, b, c; reflexivity. Qed.

Lemma initializeTsdav_without_credentials (w : World) :
  selected_credentials rt = false ->
  fst (initializeTsdav rt w) = Thrown (missing_credentials_error rt)
  /\ session (snd (initializeTsdav rt w)) = session w
  /\ count_initialize (effects (snd (initializeTsdav rt w))) =
       count_initialize (effects w).
Proof.
  unfold selected_credentials, missing_credentials_error, selects_oauth,
    hasOAuth2, hasBasicAuth, initializeTsdav, tsdavManager_initialize,
    try_catch, bind, effect, throw, ret.
  destruct (String.eqb (or_default (getenv rt "AUTH_METHOD") "Basic") "OAuth"
            || String.eqb (or_default (getenv rt "AUTH_METHOD") "Basic") "Oauth");
    cbn; rewrite credentials_check; intros ->; cbn;
    (split; [reflexivity|split; [reflexivity|count_trace]]).
Qed.

Lemma initializeTsdav_with_credentials (w : World) :
  selected_credentials rt = true ->
  count_initialize (effects (snd (initializeTsdav rt w))) =
    S (count_initialize (effects w))
  /\ match tsdav_initialize rt (selected_config rt) with
     | None =>
         fst (initializeTsdav rt w) = Returned tt
         /\ session (snd (initializeTsdav rt w)) =
              {| initialized := true; credentialMode := selected_mode rt |}
     | Some e =>
         fst (initializeTsdav rt w) = Thrown e
         /\ session (snd (initializeTsdav rt w)) = session w
     end.
Proof.
  unfold selected_credentials, selected_config, selected_mode, selects_oauth,
    hasOAuth2, hasBasicAuth, initializeTsdav, tsdavManager_initialize,
    try_catch, bind, effect, throw, ret.
  destruct (String.eqb (or_default (getenv rt "AUTH_METHOD") "Basic") "OAuth"
            || String.eqb (or_default (getenv rt "AUTH_METHOD") "Basic") "Oauth");
    cbn; rewrite credentials_check; intros ->; cbn.
  - fold (oauth_config rt).
    destruct (tsdav_initialize rt (oauth_config rt)); cbn;
      (split; [count_trace|split; reflexivity]).
  - fold (basic_config rt).
    destruct (tsdav_initialize rt (basic_config rt)); cbn;
      (split; [count_trace|split; reflexivity]).
Qed.

(** X7. [initializeTsdav] refuses to call the remote client without the
    credentials of the selected method (the Google variables when
    AUTH_METHOD is OAuth or Oauth, the CalDAV variables otherwise): it throws
    the method's "requires" error, makes no call of
    [tsdavManager.initialize] and leaves the session as it was. *)
Theorem initializeTsdav_requires_selected_credentials (w : World) :
  selected_credentials rt = false ->
  fst (initializeTsdav rt w) = Thrown (missing_credentials_error rt)
  /\ session (snd (initializeTsdav rt w)) = session w
  /\ count_initialize (effects (snd (initializeTsdav rt w))) =
       count_initialize (effects w).
Proof. apply initializeTsdav_without_credentials. Qed.

(** X8. With the credentials of the selected method present,
    [initializeTsdav] calls [tsdavManager.initialize] exactly once, with the
    configuration built from the environment for that method; when the call
    resolves the session is initialized in the method's mode, and when it
    fails the same error is rethrown and the session is left as it was. *)
Theorem initializeTsdav_uses_selected_configuration (w : World) :
  selected_credentials rt = true ->
  count_initialize (effects (snd (initializeTsdav rt w))) =
    S (count_initialize (effects w))
  /\ match tsdav_initialize rt (selected_config rt) with
     | None =>
         fst (initializeTsdav rt w) = Returned tt
         /\ session (snd (initializeTsdav rt w)) =
              {| initialized := true; credentialMode := selected_mode rt |}
     | Some e =>
         fst (initializeTsdav rt w) = Thrown e
         /\ session (snd (initializeTsdav rt w)) = session w
     end.
Proof. apply initializeTsdav_with_credentials. Qed.

Lemma selected_credentials_present :
  selected_credentials rt = true -> hasBasicAuth rt || hasOAuth2 rt = true.
Proof.
  unfold selected_credentials.
  destruct (selects_oauth rt), (hasBasicAuth rt), (hasOAuth2 rt);
    (reflexivity || discriminate).
Qed.

Lemma count_initialize_forEach_log {A} (l : list A) level payload msg w :
  count_initialize
    (effects (snd (forEach l (fun a => effect (ServerLog level (payload a) msg)) w)))
  = count_initialize (effects w).
Proof.
  revert w. induction l as [|x l IH]; intros w; cbn; [reflexivity|].
  unfold bind, effect. cbn. rewrite IH. count_trace.
Qed.

Lemma count_initialize_start_banner w :
  count_initialize (effects (snd (start_banner rt w))) =
  count_initialize (effects w).
Proof.
  unfold start_banner, bind, effect, ret. cbn.
  destruct (negb (hasBasicAuth rt) && negb (hasOAuth2 rt)
            && negb (String.eqb (or_default (getenv rt "AUTH_METHOD") "Basic") "Dummy"));
    count_trace.
Qed.

Lemma count_initialize_log_registered_tools w :
  count_initialize (effects (snd (log_registered_tools rt w))) =
  count_initialize (effects w).
Proof.
  unfold log_registered_tools.
  destruct (env_is (env rt) "LOG_LEVEL" "debug"); [|reflexivity].
  apply count_initialize_forEach_log.
Qed.

Lemma count_initialize_start_serve w :
  count_initialize (effects (snd (start_serve rt w))) =
  count_initialize (effects w).
Proof.
  unfold start_serve, createMCPServer, performHealthCheck, bind, effect,
    modify_proc, throw, ret.
  destruct (initializeToolCallLogger rt) as [lg|e]; cbn; [|reflexivity].
  destruct (connect rt) as [e|]; cbn; [count_trace|].
  rewrite count_initialize_log_registered_tools. count_trace.
Qed.

Lemma count_initialize_start_failed e w :
  count_initialize (effects (snd (start_failed e w))) =
  count_initialize (effects w).
Proof. unfold start_failed, process_exit, bind, effect, modify_proc. count_trace. Qed.

(** The inner [try]/[catch] of [start]: how often the remote client is
    initialized, and the session it leaves. *)
Lemma start_tsdav_outcome w :
  count_initialize (effects (snd (start_tsdav rt w))) =
    (count_initialize (effects w) + if selected_credentials rt then 1 else 0)%nat
  /\ session (snd (start_tsdav rt w)) =
       if selected_credentials rt then
         match tsdav_initialize rt (selected_config rt) with
         | None => {| initialized := true; credentialMode := selected_mode rt |}
         | Some _ => session w
         end
       else session w.
Proof.
  unfold start_tsdav, try_catch.
  destruct (selected_credentials rt) eqn:Hselected.
  - rewrite (selected_credentials_present Hselected).
    destruct (initializeTsdav_with_credentials w Hselected) as (Hcount & Hinit).
    destruct (tsdav_initialize rt (selected_config rt)) as [e|];
      destruct Hinit as (Hres & Hsession);
      destruct (initializeTsdav rt w) as [r w1]; cbn in *; subst r; cbn.
    + split; [|exact Hsession]. rewrite <- Nat.add_1_r in Hcount.
      rewrite <- Hcount. count_trace.
    + split; [lia|exact Hsession].
  - destruct (hasBasicAuth rt || hasOAuth2 rt).
    + destruct (initializeTsdav_without_credentials w Hselected)
        as (Hres & Hsession & Hcount).
      destruct (initializeTsdav rt w) as [r w1]; cbn in *; subst r; cbn.
      split; [|exact Hsession]. rewrite Nat.add_0_r, <- Hcount. count_trace.
    + cbn. split; [count_trace|reflexivity].
Qed.


(** X9. How often [start] initializes the remote client, and the session it
    ends with: [tsdavManager.initialize] is called once when the credentials
    of the selected method are present and never otherwise, and the session
    is initialized (in that method's mode) exactly when that call resolves;
    in every other case it is left as it was. *)
Theorem start_session_outcome (w : World) :
  count_initialize (effects (snd (start rt w))) =
    (count_initialize (effects w) + if selected_credentials rt then 1 else 0)%nat
  /\ session (snd (start rt w)) =
       if selected_credentials rt then
         match tsdav_initialize rt (selected_config rt) with
         | None => {| initialized := true; credentialMode := selected_mode rt |}
         | Some _ => session w
         end
       else session w.
Proof.
  rewrite start_unfold.
  destruct (start_banner_spec rt w) as (_ & Hbanner).
  destruct (Hbanner w) as (_ & Hsession0 & _).
  pose proof (count_initialize_start_banner w) as Hcount0.
  set (w0 := snd (start_banner rt w)) in *.
  destruct (start_tsdav_outcome w0) as (Hcount1 & Hsession1).
  set (w1 := snd (start_tsdav rt w0)) in *.
  destruct (start_serve_cases rt w1) as (_ & Hsession2 & _).
  pose proof (count_initialize_start_serve w1) as Hcount2.
  unfold try_catch.
  destruct (start_serve rt w1) as [[[]|e] w2]; cbn [fst snd] in *.
  - split; [lia|]. rewrite Hsession2, Hsession1, Hsession0. reflexivity.
  - destruct (start_failed_spec e w2) as (_ & Hsession3 & _).
    rewrite count_initialize_start_failed. split; [lia|].
    rewrite Hsession3, Hsession2, Hsession1, Hsession0. reflexivity.
Qed.

(** X10. Google credentials alone do not select OAuth: with the three
    GOOGLE variables set, the CalDAV variables incomplete and AUTH_METHOD
    neither OAuth nor Oauth, [start] attempts the initialization, which
    fails on the missing Basic credentials; the remote client is never
    called, the failure is printed, and the session is left as it was. *)
Theorem google_credentials_need_auth_method (w : World) :
  hasOAuth2 rt = true ->
  hasBasicAuth rt = false ->
  selects_oauth rt = false ->
  session (snd (start rt w)) = session w
  /\ count_initialize (effects (snd (start rt w))) = count_initialize (effects w)
  /\ In (ConsoleLog
           "[DAV-MCP] Error: Basic Auth requires CALDAV_SERVER_URL, CALDAV_USERNAME, and CALDAV_PASSWORD")
       (effects (snd (start rt w))).
Proof.
  intros Hgoogle Hbasic Hmethod.
  assert (Hselected : selected_credentials rt = false)
    by (unfold selected_credentials; rewrite Hmethod; exact Hbasic).
  rewrite start_unfold.
  destruct (start_banner_spec rt w) as (_ & Hbanner).
  destruct (Hbanner w) as (_ & Hsession0 & _).
  pose proof (count_initialize_start_banner w) as Hcount0.
  set (w0 := snd (start_banner rt w)) in *.
  destruct (start_tsdav_outcome w0) as (Hcount1 & Hsession1).
  rewrite Hselected in Hcount1, Hsession1.
  destruct (start_tsdav_spec rt w0) as (_ & _ & _ & _ & Hfail).
  destruct (initializeTsdav_without_credentials w0 Hselected) as (Hthrown & _).
  unfold missing_credentials_error in Hthrown. rewrite Hmethod in Hthrown.
  assert (Hhas : hasBasicAuth rt || hasOAuth2 rt = true)
    by (rewrite Hgoogle; apply orb_true_r).
  destruct (Hfail _ Hhas Hthrown) as (_ & _ & _ & Hprinted).
  set (w1 := snd (start_tsdav rt w0)) in *.
  destruct (start_serve_cases rt w1) as (Hext2 & Hsession2 & _).
  pose proof (count_initialize_start_serve w1) as Hcount2.
  unfold try_catch.
  destruct (start_serve rt w1) as [[[]|e] w2]; cbn [fst snd] in *.
  - split; [congruence|]. split; [lia|].
    eapply extends_In; [exact Hext2|exact Hprinted].
  - destruct (start_failed_spec e w2) as (Hext3 & Hsession3 & _).
    rewrite count_initialize_start_failed.
    split; [congruence|]. split; [lia|].
    eapply extends_In; [exact Hext3|].
    eapply extends_In; [exact Hext2|exact Hprinted].
Qed.


End Session.

(** * Properties of the health report *)

Section HealthReport.

Lemma prefix_comparable (s p q : string) :
  String.prefix p s = true ->
  String.prefix q s = true ->
  String.prefix p q = true \/ String.prefix q p = true.
Proof.
  revert p q. induction s as [|c s IH]; intros p q Hp Hq.
  - destruct p; [|discriminate Hp]. left. destruct q; reflexivity.
  - destruct p as [|a p]; [left; destruct q; reflexivity|].
    destruct q as [|b q]; [right; reflexivity|].
    cbn in Hp, Hq.
    destruct (Ascii.ascii_dec a c) as [->|]; [|discriminate Hp].
    destruct (Ascii.ascii_dec b c) as [->|]; [|discriminate Hq].
    cbn. destruct (Ascii.ascii_dec c c) as [_|Hne]; [|contradiction].
    apply IH; assumption.
Qed.

Lemma incomparable_disjoint (P Q : list string) (s : string) :
  incomparable P Q = true ->
  startsWith_any P s = true ->
  startsWith_any Q s = false.
Proof.
  unfold incomparable, startsWith_any, startsWith.
  intros Hinc HP.
  destruct (existsb (fun p => String.prefix p s) Q) eqn:HQ; [|reflexivity].
  apply existsb_exists in HP as (p & HpIn & Hp).
  apply existsb_exists in HQ as (q & HqIn & Hq).
  rewrite forallb_forall in Hinc. specialize (Hinc p HpIn).
  rewrite forallb_forall in Hinc. specialize (Hinc q HqIn).
  apply andb_true_iff in Hinc as (Hpq & Hqp).
  destruct (prefix_comparable s p q Hp Hq) as [H|H]; rewrite H in *; discriminate.
Qed.

Lemma count_disjoint {A} (f g h : A -> bool) (l : list A) :
  (forall a, f a = true -> g a = false) ->
  (forall a, f a = true -> h a = false) ->
  (forall a, g a = true -> h a = false) ->
  (length (List.filter f l) + length (List.filter g l)
   + length (List.filter h l))%nat
  = length (List.filter (fun a => f a || g a || h a) l).
Proof.
  intros Hfg Hfh Hgh. induction l as [|a l IH]; cbn; [reflexivity|].
  pose proof (Hfg a) as H1. pose proof (Hfh a) as H2. pose proof (Hgh a) as H3.
  destruct (f a), (g a), (h a); cbn;
    try (specialize (H1 eq_refl)); try (specialize (H2 eq_refl));
    try (specialize (H3 eq_refl)); try discriminate; lia.
Qed.

Lemma filter_all_length {A} (p : A -> bool) (l : list A) :
  (length (List.filter p l) <= length l)%nat
  /\ (length (List.filter p l) = length l <-> forallb p l = true).
Proof.
  induction l as [|a l (IHle & IHeq)]; cbn; [split; [lia|split; reflexivity]|].
  destruct (p a); cbn.
  - split; [lia|]. rewrite <- IHeq. split; lia.
  - split; [lia|]. split; [lia|discriminate].
Qed.

(** X12. The categories of the health report do not overlap: no tool is
    counted under two of calendar, contacts and todos, so the three counts
    never add up to more than the total, and they add up to the total
    exactly when every registered tool has a name with one of the known
    prefixes. The total is the size of the registry. *)
Theorem health_categories_partition (rt : Runtime) (w : World) :
  exists health,
    fst (performHealthCheck rt w) = Returned health
    /\ tools_total health = length (tools rt)
    /\ (calendar health + contacts health + todos health <= tools_total health)%nat
    /\ ((calendar health + contacts health + todos health)%nat = tools_total health
        <-> forallb categorised (tools rt) = true).
Proof.
  eexists. split; [reflexivity|]. cbn.
  split; [reflexivity|].
  change (count_tools rt _ + count_tools rt _ + count_tools rt _)%nat
    with (count_tools rt calendar_prefixes + count_tools rt contact_prefixes
          + count_tools rt todo_prefixes)%nat.
  unfold count_tools.
  rewrite (count_disjoint
             (fun t => startsWith_any calendar_prefixes (name t))
             (fun t => startsWith_any contact_prefixes (name t))
             (fun t => startsWith_any todo_prefixes (name t))).
  - apply (filter_all_length categorised).
  - intros t. apply incomparable_disjoint. reflexivity.
  - intros t. apply incomparable_disjoint. reflexivity.
  - intros t. apply incomparable_disjoint. reflexivity.
Qed.

End HealthReport.

(** * Further properties of the shutdown *)

Section ShutdownRuns.

Lemma run_terminated w evs c :
  exit_code (proc w) = Some c -> run w evs = w.
Proof.
  intros Hexit. unfold run. induction evs as [|ev evs IH]; cbn; [reflexivity|].
  rewrite (step_terminated w ev c Hexit). exact IH.
Qed.

Lemma run_cons w ev evs : run w (ev :: evs) = run (step w ev) evs.
Proof. reflexivity. Qed.

(** A trigger that finds no transport completes the shutdown at once. *)
Lemma step_trigger_without_transport w t :
  exit_code (proc w) = None ->
  global_transport (proc w) = false ->
  exit_code (proc (step w (Triggered t))) = Some 0
  /\ close_calls (effects (step w (Triggered t))) = close_calls (effects w)
  /\ (forall timer,
        global_cleanupInterval (proc w) = Some timer ->
        In (ClearInterval timer) (effects (step w (Triggered t)))).
Proof.
  intros Hlive Htransport. unfold step. rewrite Hlive.
  unfold on_trigger, bind.
  destruct (report_trigger_spec t w) as (Hret & Hproc & Hcalls).
  destruct (report_trigger t w) as [r w0]. cbn [fst snd] in *. subst r.
  unfold gracefulShutdown_begin, received_shutdown_signal, shutdown_completed,
    shutdown_failed, clear_cleanupInterval, process_exit, try_catch, bind,
    effect, modify_proc, ret.
  cbn. rewrite Hproc, Htransport. cbn.
  destruct (global_cleanupInterval (proc w)) as [timer|]; cbn.
  - split; [reflexivity|]. split.
    + unfold close_calls in *. rewrite !List.filter_app, !length_app. cbn. lia.
    + intros timer' [= <-]. apply in_or_app. left. apply in_or_app. left.
      apply in_or_app. right. left. reflexivity.
  - split; [reflexivity|]. split; [|discriminate].
    unfold close_calls in *. rewrite !List.filter_app, !length_app. cbn. lia.
Qed.

Lemma step_close_settled_effects w outcome n :
  exit_code (proc w) = None ->
  closing (proc w) = S n ->
  effects (step w (CloseSettled outcome)) =
    (effects w ++ release_effects (global_cleanupInterval (proc w)) outcome)%list.
Proof.
  intros Hlive Hclosing. unfold step. rewrite Hlive, Hclosing.
  unfold gracefulShutdown_resume, shutdown_completed, shutdown_failed,
    clear_cleanupInterval, process_exit, try_catch, bind, effect, modify_proc,
    throw, ret, release_effects.
  cbn. destruct outcome as [e|]; cbn.
  - rewrite <- !app_assoc. reflexivity.
  - destruct (global_cleanupInterval (proc w)); cbn;
      rewrite <- !app_assoc; reflexivity.
Qed.

(** X14. What the resumption of a pending shutdown adds to the trace. After
    a clean release: the "transport closed" record, the cancellation of the
    periodic task if one is registered, the "completed" record and the exit
    with code 0, in this order. After a release that raised: the error
    record and the exit with code 1 only, so the periodic task is not
    cancelled. *)
Theorem release_outcome_decides_cleanup
    (w : World) (outcome : option JsError) (n : nat) :
  exit_code (proc w) = None ->
  closing (proc w) = S n ->
  effects (run w [CloseSettled outcome]) =
    (effects w
     ++ match outcome with
        | None =>
            [ServerLog LInfo [] "STDIO transport closed"]
            ++ match global_cleanupInterval (proc w) with
               | Some timer => [ClearInterval timer]
               | None => []
               end
            ++ [ServerLog LInfo [] "Graceful shutdown completed"; ProcessExit 0]
        | Some e =>
            [ServerLog LError [("error", message_json e)]
               "Error during graceful shutdown";
             ProcessExit 1]
        end)%list.
Proof.
  intros Hlive Hclosing.
  exact (step_close_settled_effects w outcome n Hlive Hclosing).
Qed.

(** X15. The first settlement decides: once a pending [close()] has
    settled, the process has exited, and whatever arrives afterwards
    (further settlements of other pending runs, further triggers) changes
    nothing. *)
Theorem first_settlement_decides
    (w : World) (outcome : option JsError) (n : nat) (evs : list ProcEvent) :
  exit_code (proc w) = None ->
  closing (proc w) = S n ->
  run w (CloseSettled outcome :: evs) = run w [CloseSettled outcome]
  /\ exit_code (proc (run w (CloseSettled outcome :: evs))) =
       Some (match outcome with None => 0 | Some _ => 1 end).
Proof.
  intros Hlive Hclosing.
  destruct (step_close_settled w outcome n Hlive Hclosing) as (Hexit & _).
  rewrite run_cons, (run_terminated _ evs _ Hexit). split; [reflexivity|exact Hexit].
Qed.

(** X16. Every trigger that arrives while the transport is still being
    released calls [close()] again: after any number of triggers, with no
    settlement in between, the transport has been closed once per trigger,
    as many runs are pending, and the process has not exited. *)
Theorem triggers_accumulate_close_calls (w : World) (ts : list Trigger) :
  exit_code (proc w) = None ->
  global_transport (proc w) = true ->
  close_calls (effects (run w (map Triggered ts))) =
    (close_calls (effects w) + length ts)%nat
  /\ closing (proc (run w (map Triggered ts))) = (closing (proc w) + length ts)%nat
  /\ exit_code (proc (run w (map Triggered ts))) = None.
Proof.
  revert w. induction ts as [|t ts IH]; intros w Hlive Htransport.
  - cbn. repeat split; try lia. exact Hlive.
  - destruct (step_trigger_with_transport w t Hlive Htransport)
      as (Hcalls & Hpending & Hlive1 & Htransport1 & _).
    cbn [map length]. rewrite run_cons.
    destruct (IH _ Hlive1 Htransport1) as (IHcalls & IHpending & IHlive).
    rewrite IHcalls, IHpending, Hcalls, Hpending. repeat split; try lia.
    exact IHlive.
Qed.

(** X17. Whatever triggers and settlements arrive, in whatever order, the
    shutdown path exits with code 0 or 1 only, and with code 1 only if some
    release of the transport raised. *)
Theorem exit_code_is_zero_or_one (w : World) (evs : list ProcEvent) :
  exit_code (proc w) = None ->
  exit_code (proc (run w evs)) = None
  \/ exit_code (proc (run w evs)) = Some 0
  \/ (exit_code (proc (run w evs)) = Some 1
      /\ exists e, In (CloseSettled (Some e)) evs).
Proof.
  revert w. induction evs as [|ev evs IH]; intros w Hlive.
  - left. exact Hlive.
  - rewrite run_cons. destruct ev as [t|outcome].
    + destruct (global_transport (proc w)) eqn:Htransport.
      * destruct (step_trigger_with_transport w t Hlive Htransport)
          as (_ & _ & Hlive1 & _).
        destruct (IH _ Hlive1) as [H|[H|(H & e & He)]]; auto.
        right. right. split; [exact H|]. exists e. right. exact He.
      * destruct (step_trigger_without_transport w t Hlive Htransport)
          as (Hexit & _).
        rewrite (run_terminated _ evs 0 Hexit). auto.
    + destruct (closing (proc w)) as [|n] eqn:Hclosing.
      * assert (Hsame : step w (CloseSettled outcome) = w)
          by (unfold step; rewrite Hlive, Hclosing; reflexivity).
        rewrite Hsame.
        destruct (IH _ Hlive) as [H|[H|(H & e & He)]]; auto.
        right. right. split; [exact H|]. exists e. right. exact He.
      * destruct (step_close_settled w outcome n Hlive Hclosing) as (Hexit & _).
        rewrite (run_terminated _ evs _ Hexit).
        destruct outcome as [e|]; [|auto].
        right. right. split; [exact Hexit|]. exists e. left. reflexivity.
Qed.

End ShutdownRuns.

(** * Properties of the test harness *)

Section TestHarness.

Lemma apply_ops_cons h op ops :
  apply_ops h (op :: ops) = apply_ops (apply_op h op) ops.
Proof. reflexivity. Qed.

Lemma apply_ops_counts ops h :
  passed (result (apply_ops h ops)) =
    (passed (result h) + length (List.filter is_pass ops))%nat
  /\ failed (result (apply_ops h ops)) =
       (failed (result h) + length (List.filter (fun op => negb (is_pass op)) ops))%nat
  /\ length (tests (result (apply_ops h ops))) =
       (length (tests (result h)) + length ops)%nat.
Proof.
  revert h. induction ops as [|op ops IH]; intros h.
  - cbn. repeat split; lia.
  - rewrite apply_ops_cons. destruct (IH (apply_op h op)) as (Hp & Hf & Ht).
    rewrite Hp, Hf, Ht.
    destruct op; cbn; rewrite ?length_app; cbn; repeat split; lia.
Qed.

Lemma pass_record_status testName details :
  details !! "status" = None ->
  has_status "FAIL" (pass_record testName details) = false.
Proof.
  intros Hfree. unfold has_status, pass_record.
  rewrite lookup_union_r by exact Hfree.
  rewrite lookup_insert_ne by discriminate.
  rewrite lookup_insert_eq. reflexivity.
Qed.

Lemma fail_record_status testName error details :
  details !! "status" = None ->
  has_status "FAIL" (fail_record testName error details) = true.
Proof.
  intros Hfree. unfold has_status, fail_record.
  rewrite lookup_union_r by exact Hfree.
  rewrite lookup_insert_ne by discriminate.
  rewrite lookup_insert_eq. reflexivity.
Qed.

Lemma apply_ops_failed_records ops h :
  Forall (fun op => op_details op !! "status" = None) ops ->
  length (List.filter (has_status "FAIL") (tests (result (apply_ops h ops)))) =
    (length (List.filter (has_status "FAIL") (tests (result h)))
     + length (List.filter (fun op => negb (is_pass op)) ops))%nat.
Proof.
  revert h. induction ops as [|op ops IH]; intros h Hfree.
  - cbn. lia.
  - inversion Hfree as [|? ? Hop Hops]; subst.
    rewrite apply_ops_cons, (IH _ Hops).
    destruct op as [testName details|testName error details]; cbn in *;
      rewrite List.filter_app, length_app; cbn.
    + rewrite (pass_record_status _ _ Hop). cbn. lia.
    + rewrite (fail_record_status _ _ _ Hop). cbn. lia.
Qed.

Lemma apply_ops_report ops h :
  List.filter is_failed_test (report (apply_ops h ops)) =
  List.filter is_failed_test (report h).
Proof.
  revert h. induction ops as [|op ops IH]; intros h; [reflexivity|].
  rewrite apply_ops_cons, IH.
  destruct op; cbn; rewrite List.filter_app; cbn; apply app_nil_r.
Qed.

Lemma print_failed_tests (l : list TestRecord) h :
  List.filter is_failed_test
    (report
       (fold_left
          (fun acc t => console_log (FailedTest (t !! "name") (t !! "error")) acc)
          l h)) =
  (List.filter is_failed_test (report h)
   ++ map (fun t => FailedTest (t !! "name") (t !! "error")) l)%list.
Proof.
  revert h. induction l as [|t l IH]; intros h; cbn.
  - symmetry. apply app_nil_r.
  - rewrite IH. cbn. rewrite List.filter_app. cbn.
    rewrite <- app_assoc. reflexivity.
Qed.

Lemma filter_partition_length {A} (p : A -> bool) (l : list A) :
  (length (List.filter p l) + length (List.filter (fun a => negb (p a)) l))%nat
  = length l.
Proof.
  induction l as [|a l IH]; [reflexivity|].
  cbn [List.filter]. destruct (p a); cbn [negb length]; lia.
Qed.

(** X18. The counters of a [TestResult] agree with its records: after any
    sequence of calls of [pass] and [fail] on a new object, [passed] is the
    number of [pass] calls, [failed] the number of [fail] calls, and
    [tests] holds one record per call. *)
Theorem test_counters_match_records (ops : list TestOp) :
  passed (result (apply_ops new_Harness ops)) = length (List.filter is_pass ops)
  /\ failed (result (apply_ops new_Harness ops)) =
       length (List.filter (fun op => negb (is_pass op)) ops)
  /\ (passed (result (apply_ops new_Harness ops))
      + failed (result (apply_ops new_Harness ops)))%nat =
       length (tests (result (apply_ops new_Harness ops))).
Proof.
  destruct (apply_ops_counts ops new_Harness) as (Hp & Hf & Ht).
  cbn in Hp, Hf, Ht. rewrite Hp, Hf, Ht.
  split; [reflexivity|]. split; [reflexivity|].
  apply filter_partition_length.
Qed.

(** X19. The verdict of [summary] is true exactly when no call of [fail]
    was made. When no [details] object has a property named status (which
    would replace the recorded one), the summary lists one failed test per
    call of [fail]. *)
Theorem summary_lists_the_failures (ops : list TestOp) :
  Forall (fun op => op_details op !! "status" = None) ops ->
  fst (summary (apply_ops new_Harness ops)) = forallb is_pass ops
  /\ length (List.filter is_failed_test
               (report (snd (summary (apply_ops new_Harness ops))))) =
       failed (result (apply_ops new_Harness ops)).
Proof.
  intros Hfree.
  destruct (apply_ops_counts ops new_Harness) as (_ & Hf & _).
  pose proof (apply_ops_failed_records ops new_Harness Hfree) as Hrecords.
  pose proof (apply_ops_report ops new_Harness) as Hreport.
  cbn in Hf, Hrecords, Hreport.
  set (h := apply_ops new_Harness ops) in *.
  unfold summary. cbn [fst snd]. split.
  - rewrite Hf. clear. induction ops as [|op ops IH]; [reflexivity|].
    cbn. destruct (is_pass op); cbn; [exact IH|reflexivity].
  - destruct (failed (result h)) as [|n] eqn:Hfailed.
    + cbn. rewrite List.filter_app, Hreport. reflexivity.
    + rewrite print_failed_tests. cbn.
      rewrite !List.filter_app, Hreport. cbn.
      rewrite length_map, Hrecords. lia.
Qed.

Lemma filter_none_length {A} (p : A -> bool) (l : list A) :
  Nat.eqb (length (List.filter (fun a => negb (p a)) l)) 0 = forallb p l.
Proof.
  induction l as [|a l IH]; cbn; [reflexivity|].
  destruct (p a); cbn; [exact IH|reflexivity].
Qed.

Lemma filter_every_length {A} (p : A -> bool) (l : list A) :
  Nat.eqb (length (List.filter p l)) (length l) = forallb p l.
Proof.
  destruct (filter_all_length p l) as (Hle & Heq).
  destruct (forallb p l).
  - apply Nat.eqb_eq. apply Heq. reflexivity.
  - apply Nat.eqb_neq. intros H. apply Heq in H. discriminate.
Qed.

(** X20. The environment test and the server look at the same three
    variables in the same way: [testEnvironmentConfig] records a failure
    exactly when the server finds no complete set of Basic credentials (a
    variable unset or empty). It always records two results, the second one
    a pass whether or not an optional variable is set. *)
Theorem environment_test_agrees_with_server (rt : Runtime) (h : Harness) :
  failed (result (testEnvironmentConfig (env rt) h)) =
    (failed (result h) + if hasBasicAuth rt then 0 else 1)%nat
  /\ passed (result (testEnvironmentConfig (env rt) h)) =
       (passed (result h) + if hasBasicAuth rt then 2 else 1)%nat
  /\ length (tests (result (testEnvironmentConfig (env rt) h))) =
       (length (tests (result h)) + 2)%nat.
Proof.
  unfold testEnvironmentConfig.
  rewrite (filter_none_length (fun v => truthy (env rt !! v)) requiredVars).
  change (forallb (fun v => truthy (env rt !! v)) requiredVars)
    with (truthy (env rt !! "CALDAV_SERVER_URL")
          && (truthy (env rt !! "CALDAV_USERNAME")
              && (truthy (env rt !! "CALDAV_PASSWORD") && true))).
  unfold hasBasicAuth, getenv.
  destruct (truthy (env rt !! "CALDAV_SERVER_URL")),
    (truthy (env rt !! "CALDAV_USERNAME")),
    (truthy (env rt !! "CALDAV_PASSWORD"));
    cbn [andb];
    destruct (Nat.ltb 0 _); cbn; rewrite ?length_app; cbn; repeat split; lia.
Qed.

(** The failures [testFileStructure] records. *)
Lemma file_structure_failures (fs : FileSystem) (h : Harness) :
  failed (result (testFileStructure fs h)) =
    (failed (result h)
     + (if forallb (existsSync fs) requiredFiles then 0 else 1)
     + (if existsSync fs "src/server-stdio.js" then
          match readFileSync fs "src/server-stdio.js" with
          | Thrown _ => 1
          | Returned content =>
              (if forallb (includes content) requiredImports then 0 else 1)
              + (if has_main_function content then 0 else 1)
          end
        else 0))%nat.
Proof.
  unfold testFileStructure.
  rewrite (filter_every_length (existsSync fs) requiredFiles).
  destruct (existsSync fs "src/server-stdio.js");
    [destruct (readFileSync fs "src/server-stdio.js") as [content|e];
     [rewrite (filter_none_length (includes content) requiredImports);
      destruct (forallb (includes content) requiredImports);
      destruct (has_main_function content)|]|];
    destruct (forallb (existsSync fs) requiredFiles); cbn; lia.
Qed.

(** X21. [testFileStructure] records no failure exactly when the six
    required files exist, the server file can be read, it contains the five
    import markers, and it contains "start()" or "async function start".
    When the server file does not exist the import and main-function checks
    are not made: the only result recorded is the failed file check. *)
Theorem file_structure_test_passes_iff (fs : FileSystem) (h : Harness) :
  (failed (result (testFileStructure fs h)) = failed (result h)
   <-> forallb (existsSync fs) requiredFiles = true
       /\ exists content,
            readFileSync fs "src/server-stdio.js" = Returned content
            /\ forallb (includes content) requiredImports = true
            /\ has_main_function content = true)
  /\ (existsSync fs "src/server-stdio.js" = false ->
      failed (result (testFileStructure fs h)) = S (failed (result h))
      /\ length (tests (result (testFileStructure fs h))) =
           S (length (tests (result h)))).
Proof.
  split.
  - rewrite file_structure_failures.
    assert (Hserver : forallb (existsSync fs) requiredFiles = true ->
                      existsSync fs "src/server-stdio.js" = true).
    { intros Hall. rewrite forallb_forall in Hall. apply Hall. left. reflexivity. }
    destruct (forallb (existsSync fs) requiredFiles).
    + rewrite (Hserver eq_refl).
      destruct (readFileSync fs "src/server-stdio.js") as [content|e].
      * destruct (forallb (includes content) requiredImports) eqn:Himports;
          destruct (has_main_function content) eqn:Hmain; cbn [Nat.add];
          (split;
           [ intros Heq;
             first [ lia
                   | split; [reflexivity|];
                     exists content; repeat split; assumption ]
           | intros (_ & content' & [= <-] & Hi & Hm);
             first [ lia | congruence ] ]).
      * split; [lia|]. intros (_ & content & Hread & _). discriminate Hread.
    + split; [|intros (Hall & _); discriminate Hall].
      destruct (existsSync fs "src/server-stdio.js"); [|lia].
      destruct (readFileSync fs "src/server-stdio.js") as [content|e]; lia.
  - intros Hmissing.
    assert (Hall : forallb (existsSync fs) requiredFiles = false).
    { cbn. rewrite Hmissing. reflexivity. }
    unfold testFileStructure.
    rewrite (filter_every_length (existsSync fs) requiredFiles), Hall, Hmissing.
    cbn. rewrite length_app. cbn. split; lia.
Qed.

End TestHarness.

(** * The further properties at the sample data *)

Lemma earliest_registered_tool_answers_create_event :
  fst (CallTool_handler offline_runtime (call "create_event") initial_world) =
    Returned (ToolErrorResponse (configuration_error offline_runtime) false).
Proof.
  exact (proj1 (proj2 (earliest_registered_tool_answers offline_runtime
                         (call "create_event") initial_world
                         [list_calendars_tool] create_event_tool
                         [list_contacts_tool] eq_refl eq_refl
                         ltac:(intros [H|[]]; discriminate H)))
           (new_Error "CalDAV client not initialized. Call initialize() first.")
           eq_refl).
Defined.

Lemma stack_included_only_in_development_offline :
  exists response,
    fst (CallTool_handler offline_runtime (call "create_event") initial_world)
    = Returned response
    /\ (response_includes_stack response = true
        <-> env offline_runtime !! "NODE_ENV" = Some "development").
Proof.
  exact (stack_included_only_in_development offline_runtime (call "create_event")
           initial_world create_event_tool
           (new_Error "CalDAV client not initialized. Call initialize() first.")
           eq_refl eq_refl eq_refl).
Defined.

Lemma terminal_duration_is_elapsed_time_offline :
  exists new,
    effects (snd (CallTool_handler offline_runtime (call "create_event")
                    initial_world)) = (effects initial_world ++ new)%list
    /\ map terminal_duration (List.filter is_lifecycle new) = [None; None; Some 5].
Proof.
  destruct (terminal_duration_is_elapsed_time offline_runtime
              (call "create_event") initial_world create_event_tool eq_refl)
    as (new & Heffects & Hduration & _).
  exists new. split; [exact Heffects|exact (Hduration _ eq_refl)].
Defined.

Lemma readable_outcome_lifecycle_create_event :
  exists new requestId duration,
    effects (snd (CallTool_handler offline_runtime (call "create_event")
                    initial_world)) = (effects initial_world ++ new)%list
    /\ lifecycle new =
         [LogToolCallStart "create_event" empty_object (start_meta requestId);
          HandlerCall "create_event" empty_object;
          LogToolCallError "create_event" empty_object
            (configuration_error offline_runtime) (end_meta requestId duration)].
Proof.
  destruct (readable_outcome_lifecycle offline_runtime (call "create_event")
              initial_world create_event_tool eq_refl
              ltac:(intros error [= <-]; reflexivity))
    as (new & requestId & duration & terminal & Heffects & Hlife & _ & Herror & _).
  exists new, requestId, duration. split; [exact Heffects|].
  rewrite Hlife.
  rewrite (Herror (new_Error "CalDAV client not initialized. Call initialize() first.")
             eq_refl).
  reflexivity.
Defined.

Lemma initializeTsdav_requires_selected_credentials_offline :
  fst (initializeTsdav offline_runtime initial_world) =
    Thrown (new_Error "Basic Auth requires CALDAV_SERVER_URL, CALDAV_USERNAME, and CALDAV_PASSWORD").
Proof.
  exact (proj1 (initializeTsdav_requires_selected_credentials offline_runtime
                  initial_world ltac:(vm_compute; reflexivity))).
Defined.

Lemma initializeTsdav_uses_selected_configuration_basic :
  count_initialize
    (effects (snd (initializeTsdav (sample_runtime basic_env) initial_world)))
  = 1%nat.
Proof.
  exact (proj1 (initializeTsdav_uses_selected_configuration
                  (sample_runtime basic_env) initial_world
                  ltac:(vm_compute; reflexivity))).
Defined.

Lemma google_credentials_need_auth_method_sample :
  session (snd (start (sample_runtime google_env) initial_world)) =
    uninitialized_session.
Proof.
  exact (proj1 (google_credentials_need_auth_method (sample_runtime google_env)
                  initial_world ltac:(vm_compute; reflexivity)
                  ltac:(vm_compute; reflexivity) ltac:(vm_compute; reflexivity))).
Defined.


Lemma release_outcome_decides_cleanup_failed :
  effects (run (with_interval shutting_down_world)
             [CloseSettled (Some (new_Error "EPIPE"))]) =
    (effects (with_interval shutting_down_world)
     ++ [ServerLog LError [("error", JStr "EPIPE")]
           "Error during graceful shutdown";
         ProcessExit 1])%list.
Proof.
  exact (release_outcome_decides_cleanup (with_interval shutting_down_world)
           (Some (new_Error "EPIPE")) 0
           ltac:(vm_compute; reflexivity) ltac:(vm_compute; reflexivity)).
Defined.

Lemma first_settlement_decides_sample :
  exit_code
    (proc (run shutting_down_world
             [CloseSettled (Some (new_Error "EPIPE")); CloseSettled None;
              Triggered SIGINT])) = Some 1.
Proof.
  exact (proj2 (first_settlement_decides shutting_down_world
                  (Some (new_Error "EPIPE")) 0
                  [CloseSettled None; Triggered SIGINT]
                  ltac:(vm_compute; reflexivity) ltac:(vm_compute; reflexivity))).
Defined.

Lemma triggers_accumulate_close_calls_sample :
  close_calls
    (effects (run connected_world
                (map Triggered [SIGTERM; SIGINT; SIGTERM]))) =
    (close_calls (effects connected_world) + 3)%nat.
Proof.
  exact (proj1 (triggers_accumulate_close_calls connected_world
                  [SIGTERM; SIGINT; SIGTERM]
                  ltac:(vm_compute; reflexivity) ltac:(vm_compute; reflexivity))).
Defined.

Lemma exit_code_is_zero_or_one_sample :
  exit_code (proc (run connected_world [Triggered SIGTERM; CloseSettled None]))
    = None
  \/ exit_code (proc (run connected_world [Triggered SIGTERM; CloseSettled None]))
     = Some 0
  \/ (exit_code (proc (run connected_world [Triggered SIGTERM; CloseSettled None]))
      = Some 1
      /\ exists e,
           In (CloseSettled (Some e)) [Triggered SIGTERM; CloseSettled None]).
Proof.
  exact (exit_code_is_zero_or_one connected_world
           [Triggered SIGTERM; CloseSettled None] ltac:(vm_compute; reflexivity)).
Defined.

Lemma summary_lists_the_failures_sample :
  fst (summary (apply_ops new_Harness sample_ops)) = false
  /\ length (List.filter is_failed_test
               (report (snd (summary (apply_ops new_Harness sample_ops)))))
     = failed (result (apply_ops new_Harness sample_ops)).
Proof.
  exact (summary_lists_the_failures sample_ops
           ltac:(repeat (apply List.Forall_cons; [vm_compute; reflexivity|]);
                 apply List.Forall_nil)).
Defined.
